(** * A shallow embedding of [downloader.py]

    The script is a sequential wrapper around an external extraction
    library.  Everything the script itself decides is embedded here as
    executable definitions: the format selector built by the constructor,
    the per-URL dispatch with its [try]/[except], the enumerating loop, the
    URL-list file filter, the summary printer, [main] and the entry block at
    the bottom of the file.

    Everything the script does not decide (the extraction library, the file
    system, [pathlib], [argparse], the arithmetic and the text of Python's
    floats) is an environment [Env]: a record of functions over an abstract
    world, so that every theorem holds for each behaviour these
    collaborators may show. *)

From Stdlib Require Import ZArith List String Ascii Bool Lia DecimalString.
From Stdlib Require Import Floats.PrimFloat.
From Stdlib Require Uint63.
Import ListNotations.

Open Scope string_scope.
Open Scope Z_scope.

(** ** Python strings

    A [string] is a Python [str] whose characters are code points below 256. *)
Module PyStr.

(** The line feed, ["\n"]. *)
Definition nl : string := String (ascii_of_nat 10) EmptyString.

(** [str(n)] for an [int]. *)
Definition of_int (z : Z) : string := NilZero.string_of_int (Z.to_int z).

(** [format(z, "02d")]: at least two characters, zero filled after the sign. *)
Definition fmt_02d (z : Z) : string :=
  if (0 <=? z) && (z <? 10) then "0" ++ of_int z else of_int z.

(** [s * n]. *)
Fixpoint mul (s : string) (n : nat) : string :=
  match n with
  | O => EmptyString
  | S n' => s ++ mul s n'
  end.

(** [str.isspace] on one character: TAB..CR, FS..US, space, NEL, NBSP. *)
Definition isspace (c : ascii) : bool :=
  let n := N_of_ascii c in
  (((9 <=? n) && (n <=? 13)) || ((28 <=? n) && (n <=? 32))
   || (n =? 133) || (n =? 160))%N.

(** [s.lstrip(chars)], the set of characters given as a predicate. *)
Fixpoint lstrip (f : ascii -> bool) (s : string) : string :=
  match s with
  | EmptyString => EmptyString
  | String c s' => if f c then lstrip f s' else s
  end.

(** [s.rstrip(chars)]. *)
Fixpoint rstrip (f : ascii -> bool) (s : string) : string :=
  match s with
  | EmptyString => EmptyString
  | String c s' =>
      match rstrip f s' with
      | EmptyString => if f c then EmptyString else String c EmptyString
      | r => String c r
      end
  end.

(** [s.strip()]. *)
Definition strip (s : string) : string := rstrip isspace (lstrip isspace s).

(** [s.rstrip("p")]. *)
Definition rstrip_p (s : string) : string := rstrip (Ascii.eqb "p"%char) s.

(** [s.startswith(p)]. *)
Fixpoint startswith (p s : string) : bool :=
  match p, s with
  | EmptyString, _ => true
  | String a p', String b s' => Ascii.eqb a b && startswith p' s'
  | String _ _, EmptyString => false
  end.

(** Truth value of a [str]. *)
Definition truthy (s : string) : bool :=
  match s with EmptyString => false | _ => true end.

(** Truth value of a value that is [None] or a [str]. *)
Definition truthy_opt (o : option string) : bool :=
  match o with None => false | Some s => truthy s end.

(** [str(v)] of a value that is [None] or a [str]. *)
Definition of_opt (o : option string) : string :=
  match o with None => "None" | Some s => s end.

(** [p in s]. *)
Fixpoint contains (p s : string) : bool :=
  startswith p s ||
  match s with
  | EmptyString => false
  | String _ s' => contains p s'
  end.

End PyStr.

(** ** Data *)

(** Exceptions derived from [Exception]; [str(e)] is [exc_str].  Signals
    outside that class ([KeyboardInterrupt]) are not part of the model;
    [SystemExit] is the separate result [Exit] below. *)
Inductive ExcClass :=
| FileNotFoundError
| AttributeError
| TypeError
| ValueError
| OtherException.

Record PyExc := { exc_class : ExcClass; exc_str : string }.

(** The dictionary [ydl_opts]. *)
Record YdlOpts := {
  outtmpl : string;
  ignoreerrors : bool;
  no_warnings : bool;
  extractaudio : bool;
  audioformat : option string;
  format : string
}.

(** The two attributes the constructor sets. *)
Record YouTubeDownloader := {
  download_path : string;
  ydl_opts : YdlOpts
}.

(** The values the script finds under the keys it reads: [None], an
    [int], a [float] (an IEEE double, as in CPython) or a [str]. *)
Inductive PyVal :=
| PyNone
| PyInt (z : Z)
| PyFloat (x : PrimFloat.float)
| PyStr (s : string).

(** [type(v).__name__], as Python's error messages spell it. *)
Definition type_name (v : PyVal) : string :=
  match v with
  | PyNone => "NoneType"
  | PyInt _ => "int"
  | PyFloat _ => "float"
  | PyStr _ => "str"
  end.

(** [bool(v)]: [None], zero (of either sign) and the empty string are
    false; a NaN is true. *)
Definition truthy_val (v : PyVal) : bool :=
  match v with
  | PyNone => false
  | PyInt z => negb (z =? 0)
  | PyFloat x => negb (PrimFloat.eqb x PrimFloat.zero)
  | PyStr s => PyStr.truthy s
  end.

(** What [extract_info] hands back, restricted to the two keys the script
    reads.  A key is absent ([None] here) or bound to a value, which may
    be Python's [None] ([Some PyNone]): [dict.get] tells the two apart. *)
Record Info := {
  info_title : option PyVal;
  info_duration : option PyVal
}.

(** [info.get(key, default)]. *)
Definition get_or (entry : option PyVal) (default : PyVal) : PyVal :=
  match entry with
  | Some v => v
  | None => default
  end.

Inductive Status := success | error.

Definition Status_eqb (a b : Status) : bool :=
  match a, b with
  | success, success | error, error => true
  | _, _ => false
  end.

(** The dictionary returned by [download_single_video]. *)
Record Result := {
  r_url : string;
  r_title : PyVal;
  r_status : Status;
  r_duration : PyVal;
  r_error : option string
}.

(** The namespace returned by [parser.parse_args()]. *)
Record Args := {
  arg_urls : list string;
  arg_file : option string;
  arg_output : string;
  arg_audio_only : bool;
  arg_quality : string;
  arg_format : option string
}.

(** Calls that leave the script. *)
Inductive Call :=
| Mkdir (path : string)
| OpenRead (path : string)
| Probe (opts : YdlOpts) (url : string)
| Fetch (opts : YdlOpts) (url : string).

Definition is_dispatch (c : Call) : bool :=
  match c with
  | Probe _ _ | Fetch _ _ => true
  | _ => false
  end.

(** ** The collaborators *)
Record Env := {
  World : Type;
  (** [Path(p).mkdir(parents=True, exist_ok=True)] *)
  fs_mkdir : string -> World -> (PyExc + unit) * World;
  (** [str(Path(p).absolute())] *)
  fs_absolute : string -> World -> string;
  (** [str(Path(p) / q)] *)
  path_join : string -> string -> string;
  (** [open(p, 'r', encoding='utf-8')] and the iteration over its lines,
      each line with its terminator *)
  fs_read_lines : string -> World -> (PyExc + list string) * World;
  (** [YoutubeDL(opts).extract_info(url, download=False)]; [None] is a
      legal return value of the library *)
  ydl_extract_info : YdlOpts -> string -> World -> (PyExc + option Info) * World;
  (** [YoutubeDL(opts).download([url])], returning the library's code *)
  ydl_download : YdlOpts -> string -> World -> (PyExc + Z) * World;
  (** [parser.parse_args()] on [sys.argv[1:]]: a namespace, or the exit
      code of the [SystemExit] argparse raises.  What argparse itself
      writes before it exits (the help, a usage error) is the library's
      output, like the progress output of the extraction library: it is
      not among the strings the script hands to [print]. *)
  parse_args : list string -> Z + Args;
  (** whether [import yt_dlp] at the top of the file succeeds *)
  yt_dlp_found : bool;
  (** [repr(x)] of a float, which is also its [str] and its text in an
      f-string *)
  float_repr : PrimFloat.float -> string;
  (** [float(n)] as the mixed sum [n + x] computes it; Python raises
      [OverflowError] for an [int] beyond the doubles *)
  float_of_int : Z -> PyExc + PrimFloat.float;
  (** [x // n] for a float [x] and the int [n], [n] being 60 or 3600 in
      the script, where neither the conversion nor the division fails *)
  float_floordiv : PrimFloat.float -> Z -> PrimFloat.float;
  (** [x % n], likewise *)
  float_mod : PrimFloat.float -> Z -> PrimFloat.float;
  (** [s % n] for a str [s]: printf-style formatting *)
  str_percent : string -> Z -> PyExc + PyVal
}.

(** ** The format selector (constructor, "set format/quality") *)

Definition quality_format (quality : string) : string :=
  if String.eqb quality "best" then
    "bestvideo[ext=mp4]+bestaudio[ext=m4a]/best[ext=mp4]/best"
  else if String.eqb quality "worst" then
    "worst[ext=mp4]/worst"
  else
    "best[height<=" ++ PyStr.rstrip_p quality ++ "][ext=mp4]/best[height<="
      ++ PyStr.rstrip_p quality ++ "]".

Definition select_format (format_selector : option string) (audio_only : bool)
    (quality : string) : string :=
  if PyStr.truthy_opt format_selector then PyStr.of_opt format_selector
  else if audio_only then "bestaudio/best"
  else quality_format quality.

(** ** Effects

    A run threads the collaborators' world, the strings handed to [print]
    (one entry per call, without the newline [print] adds) and the log of
    calls that left the script. *)
Inductive Res (A : Type) :=
| Ok (a : A)
| Raise (e : PyExc)
| Exit (code : Z).

Arguments Ok {A} a.
Arguments Raise {A} e.
Arguments Exit {A} code.

(** The exit status of the interpreter for each way the entry block ends. *)
Definition exit_status {A} (r : Res A) : Z :=
  match r with
  | Ok _ => 0
  | Raise _ => 1
  | Exit code => code
  end.

Section Program.

Variable E : Env.

Record State := {
  world : World E;
  printed : list string;
  calls : list Call
}.

Definition M (A : Type) : Type := State -> Res A * State.

Definition ret {A} (a : A) : M A := fun s => (Ok a, s).

Definition bind {A B} (m : M A) (k : A -> M B) : M B :=
  fun s =>
    match m s with
    | (Ok a, s') => k a s'
    | (Raise e, s') => (Raise e, s')
    | (Exit c, s') => (Exit c, s')
    end.

Definition raise {A} (e : PyExc) : M A := fun s => (Raise e, s).

Definition sys_exit {A} (code : Z) : M A := fun s => (Exit code, s).

(** [try: body except Exception as e: handler(e)]. *)
Definition try_except {A} (body : M A) (handler : PyExc -> M A) : M A :=
  fun s =>
    match body s with
    | (Raise e, s') => handler e s'
    | other => other
    end.

Definition print (line : string) : M unit :=
  fun s =>
    (Ok tt, {| world := world s;
               printed := printed s ++ [line];
               calls := calls s |}).

(** A call to a collaborator: logged, then run on the world. *)
Definition call {A} (c : Call) (f : World E -> (PyExc + A) * World E) : M A :=
  fun s =>
    let (r, w) := f (world s) in
    let s' := {| world := w; printed := printed s; calls := calls s ++ [c] |} in
    match r with
    | inl e => (Raise e, s')
    | inr a => (Ok a, s')
    end.

(** A read of the world that cannot fail. *)
Definition ask {A} (f : World E -> A) : M A := fun s => (Ok (f (world s)), s).

Notation "x <- m ;; k" := (bind m (fun x => k))
  (at level 100, m at next level, right associativity).
Notation "m ;;; k" := (bind m (fun _ => k))
  (at level 100, right associativity).

(** ** [YouTubeDownloader.__init__] *)
Definition init (download_path : string) (audio_only : bool) (quality : string)
    (format_selector : option string) : M YouTubeDownloader :=
  _ <- call (Mkdir download_path) (fs_mkdir E download_path) ;;
  ret {| download_path := download_path;
         ydl_opts := {|
           outtmpl := path_join E download_path "%(title)s.%(ext)s";
           ignoreerrors := true;
           no_warnings := false;
           extractaudio := audio_only;
           audioformat := if audio_only then Some "mp3" else None;
           format := select_format format_selector audio_only quality |} |}.

(** ** Python's operators on the values of a record *)

(** Computations that return or raise, without effect. *)
Definition Exc (A : Type) : Type := (PyExc + A)%type.

Definition exc_bind {A B} (m : Exc A) (k : A -> Exc B) : Exc B :=
  match m with
  | inl e => inl e
  | inr a => k a
  end.

(** An effect-free computation inside a run. *)
Definition lift {A} (m : Exc A) : M A :=
  fun s =>
    match m with
    | inl e => (Raise e, s)
    | inr a => (Ok a, s)
    end.

(** [str(v)], which is also the text of [{v}] in an f-string. *)
Definition py_str (v : PyVal) : string :=
  match v with
  | PyNone => "None"
  | PyInt z => PyStr.of_int z
  | PyFloat x => float_repr E x
  | PyStr s => s
  end.

Definition unsupported_operands (op : string) (a b : string) : PyExc :=
  {| exc_class := TypeError;
     exc_str := "unsupported operand type(s) for " ++ op ++ ": '" ++ a
                  ++ "' and '" ++ b ++ "'" |}.

(** [v // n] for the int [n], which is not 0 where the script divides. *)
Definition py_floordiv (v : PyVal) (n : Z) : Exc PyVal :=
  match v with
  | PyInt z => inr (PyInt (z / n))
  | PyFloat x => inr (PyFloat (float_floordiv E x n))
  | _ => inl (unsupported_operands "//" (type_name v) "int")
  end.

(** [v % n] for the int [n]. *)
Definition py_mod (v : PyVal) (n : Z) : Exc PyVal :=
  match v with
  | PyInt z => inr (PyInt (z mod n))
  | PyFloat x => inr (PyFloat (float_mod E x n))
  | PyStr s => str_percent E s n
  | PyNone => inl (unsupported_operands "%" (type_name v) "int")
  end.

(** [format(v, "02d")], the text of [{v:02d}]. *)
Definition py_format_02d (v : PyVal) : Exc string :=
  match v with
  | PyInt z => inr (PyStr.fmt_02d z)
  | PyNone =>
      inl {| exc_class := TypeError;
             exc_str := "unsupported format string passed to NoneType.__format__" |}
  | _ =>
      inl {| exc_class := ValueError;
             exc_str := "Unknown format code 'd' for object of type '"
                          ++ type_name v ++ "'" |}
  end.

(** The double quote. *)
Definition dquote : string := String (ascii_of_nat 34) EmptyString.

(** [a + b]. *)
Definition py_add (a b : PyVal) : Exc PyVal :=
  match a, b with
  | PyInt x, PyInt y => inr (PyInt (x + y))
  | PyInt x, PyFloat y =>
      exc_bind (float_of_int E x) (fun x' => inr (PyFloat (PrimFloat.add x' y)))
  | PyFloat x, PyInt y =>
      exc_bind (float_of_int E y) (fun y' => inr (PyFloat (PrimFloat.add x y')))
  | PyFloat x, PyFloat y => inr (PyFloat (PrimFloat.add x y))
  | PyStr x, PyStr y => inr (PyStr (x ++ y))
  | PyStr _, _ =>
      inl {| exc_class := TypeError;
             exc_str := "can only concatenate str (not " ++ dquote ++ type_name b
                          ++ dquote ++ ") to str" |}
  | _, _ => inl (unsupported_operands "+" (type_name a) (type_name b))
  end.

(** [sum(values)] continued from the partial sum [acc]. *)
Fixpoint py_sum_from (acc : PyVal) (values : list PyVal) : Exc PyVal :=
  match values with
  | [] => inr acc
  | v :: rest => exc_bind (py_add acc v) (fun acc' => py_sum_from acc' rest)
  end.

(** [sum(values)]: the additions start from the int 0. *)
Definition py_sum (values : list PyVal) : Exc PyVal :=
  py_sum_from (PyInt 0) values.

(** ** [download_single_video] *)
Definition error_result (url error_msg : string) : Result :=
  {| r_url := url; r_title := PyStr "Unknown"; r_status := error;
     r_duration := PyInt 0; r_error := Some error_msg |}.

Definition success_result (url : string) (title duration : PyVal) : Result :=
  {| r_url := url; r_title := title; r_status := success;
     r_duration := duration; r_error := None |}.

(** The text of [f"Duration: {duration // 60}:{duration % 60:02d}"], its
    fields evaluated and formatted from left to right. *)
Definition duration_text (duration : PyVal) : Exc string :=
  exc_bind (py_floordiv duration 60) (fun minutes =>
  exc_bind (py_mod duration 60) (fun seconds =>
  exc_bind (py_format_02d seconds) (fun padded =>
  inr ("Duration: " ++ py_str minutes ++ ":" ++ padded)))).

Definition none_has_no_get : PyExc :=
  {| exc_class := AttributeError;
     exc_str := "'NoneType' object has no attribute 'get'" |}.

Definition download_single_video (self : YouTubeDownloader) (url : string)
    : M Result :=
  try_except
    (info <- call (Probe (ydl_opts self) url)
                  (ydl_extract_info E (ydl_opts self) url) ;;
     match info with
     | None => raise none_has_no_get
     | Some info =>
         let title := get_or (info_title info) (PyStr "Unknown") in
         let duration := get_or (info_duration info) (PyInt 0) in
         print ("Downloading: " ++ py_str title) ;;;
         (if truthy_val duration then
            line <- lift (duration_text duration) ;;
            print line
          else ret tt) ;;;
         _ <- call (Fetch (ydl_opts self) url)
                   (ydl_download E (ydl_opts self) url) ;;
         ret (success_result url title duration)
     end)
    (fun e =>
       let error_msg := exc_str e in
       print ("Error downloading " ++ url ++ ": " ++ error_msg) ;;;
       ret (error_result url error_msg)).

(** ** [download_multiple_videos] *)

(** The [for i, url in enumerate(urls, 1)] loop; [results] is the list
    appended to. *)
Fixpoint download_loop (self : YouTubeDownloader) (total : nat) (i : Z)
    (urls : list string) (results : list Result) : M (list Result) :=
  match urls with
  | [] => ret results
  | url :: rest =>
      print (PyStr.nl ++ "[" ++ PyStr.of_int i ++ "/"
               ++ PyStr.of_int (Z.of_nat total) ++ "] Processing: " ++ url) ;;;
      result <- download_single_video self url ;;
      download_loop self total (i + 1) rest (results ++ [result])
  end.

Definition download_multiple_videos (self : YouTubeDownloader)
    (urls : list string) : M (list Result) :=
  let total := List.length urls in
  print ("Starting download of " ++ PyStr.of_int (Z.of_nat total) ++ " videos...") ;;;
  abs <- ask (fs_absolute E (download_path self)) ;;
  print ("Download directory: " ++ abs) ;;;
  print (PyStr.mul "-" 50) ;;;
  download_loop self total 1 urls [].

(** ** [download_from_file] *)

(** The condition of the comprehension:
    [line.strip() and not line.startswith('#')]. *)
Definition keep_line (line : string) : bool :=
  PyStr.truthy (PyStr.strip line) && negb (PyStr.startswith "#" line).

(** [[line.strip() for line in f if ...]]. *)
Definition parse_url_lines (lines : list string) : list string :=
  map PyStr.strip (filter keep_line lines).

Definition download_from_file (self : YouTubeDownloader) (file_path : string)
    : M (list Result) :=
  try_except
    (lines <- call (OpenRead file_path) (fs_read_lines E file_path) ;;
     let urls := parse_url_lines lines in
     download_multiple_videos self urls)
    (fun e =>
       match exc_class e with
       | FileNotFoundError =>
           print ("Error: File '" ++ file_path ++ "' not found.") ;;;
           ret []
       | _ =>
           print ("Error reading file '" ++ file_path ++ "': " ++ exc_str e) ;;;
           ret []
       end).

(** ** [print_summary] *)
Definition successful (results : list Result) : list Result :=
  filter (fun r => Status_eqb (r_status r) success) results.

Definition failed (results : list Result) : list Result :=
  filter (fun r => Status_eqb (r_status r) error) results.

(** [sum(r['duration'] for r in successful)]. *)
Definition total_duration (results : list Result) : Exc PyVal :=
  py_sum (map r_duration (successful results)).

(** The text of the f-string of the duration line, its three fields
    evaluated and formatted from left to right. *)
Definition duration_line (total_duration : PyVal) : Exc string :=
  exc_bind (py_floordiv total_duration 3600) (fun hours =>
  exc_bind (py_mod total_duration 3600) (fun rest =>
  exc_bind (py_floordiv rest 60) (fun minutes =>
  exc_bind (py_mod total_duration 60) (fun seconds =>
  inr ("Total duration: " ++ py_str hours ++ "h " ++ py_str minutes ++ "m "
         ++ py_str seconds ++ "s"))))).

Definition failure_line (result : Result) : string :=
  "  - " ++ r_url result ++ ": " ++ PyStr.of_opt (r_error result).

Fixpoint print_all (lines : list string) : M unit :=
  match lines with
  | [] => ret tt
  | line :: rest => print line ;;; print_all rest
  end.

Definition print_summary (results : list Result) : M unit :=
  print (PyStr.nl ++ PyStr.mul "=" 60) ;;;
  print "DOWNLOAD SUMMARY :3" ;;;
  print (PyStr.mul "=" 60) ;;;
  print ("Total videos processed: "
           ++ PyStr.of_int (Z.of_nat (List.length results))) ;;;
  print ("Successfully downloaded: "
           ++ PyStr.of_int (Z.of_nat (List.length (successful results)))) ;;;
  print ("Failed downloads: "
           ++ PyStr.of_int (Z.of_nat (List.length (failed results)))) ;;;
  (match successful results with
   | [] => ret tt
   | _ =>
       total <- lift (total_duration results) ;;
       line <- lift (duration_line total) ;;
       print line
   end) ;;;
  (match failed results with
   | [] => ret tt
   | _ =>
       print (PyStr.nl ++ "Failed downloads:") ;;;
       print_all (map failure_line (failed results))
   end).

(** ** [main] *)
Definition usage_lines : list string :=
  [ "No URLs provided. Use --help for usage information.";
    PyStr.nl ++ "Example usage:";
    "  python youtube_downloader.py 'https://youtube.com/watch?v=...' 'https://youtube.com/watch?v=...'";
    "  python youtube_downloader.py -f urls.txt";
    "  python youtube_downloader.py -a -q 720p 'https://youtube.com/watch?v=...'" ].

(** [results = []] and the two [results.extend(...)] statements. *)
Definition gather_results (downloader : YouTubeDownloader) (args : Args)
    : M (list Result) :=
  let results := [] in
  results <- (if PyStr.truthy_opt (arg_file args) then
                from_file <- download_from_file downloader
                               (PyStr.of_opt (arg_file args)) ;;
                ret (results ++ from_file)%list
              else ret results) ;;
  match arg_urls args with
  | [] => ret results
  | _ =>
      from_args <- download_multiple_videos downloader (arg_urls args) ;;
      ret (results ++ from_args)%list
  end.

Definition main (argv : list string) : M unit :=
  match parse_args E (tl argv) with
  | inl code => sys_exit code
  | inr args =>
      downloader <- init (arg_output args) (arg_audio_only args)
                      (arg_quality args) (arg_format args) ;;
      results <- gather_results downloader args ;;
      if negb (PyStr.truthy_opt (arg_file args))
         && match arg_urls args with [] => true | _ => false end
      then print_all usage_lines
      else print_summary results
  end.

(** ** The block under [if __name__ == "__main__"] *)
Definition example_urls : list string :=
  [ "https://youtu.be/9uxvKLSKpPA?si=g_RfxgG-LGlEVhE7";
    "https://youtu.be/NCPIBPGJTFk?si=N-KiG-EeUVIGYbYS";
    "https://youtu.be/gsUPN9h9Kd4?si=dU59r4Wqy2SExVvc";
    "https://youtu.be/Z8XSbud_OEo?si=zATy_tqmLVtVMs7N"
      ++ "https://youtu.be/9oE0ByeTF58?si=WNjQfgmco2YKnNyn";
    "https://youtu.be/uoor0Gvhn-s?si=8UBYad5eqkknltaE";
    "https://youtu.be/dT9xRd86h18?si=CdAzn8-5hbdqCFdr";
    "https://youtu.be/rVo3Z9MddAA?si=9Mz_PzXl1eLpWEyu";
    "https://youtu.be/O6z2jAs6wLc?si=93KWaMC1wrbuLkVy";
    "https://youtu.be/B0EIkD3yIbI?si=F7p2ZxTNXZ20O9Jk";
    "https://youtu.be/MqSAneZZG3c?si=G-emgMn2xYXKbaKa" ].

Definition script (argv : list string) : M unit :=
  if (1 <? List.length argv)%nat then main argv
  else
    print "YouTube Multi-Video Downloader" ;;;
    print (PyStr.mul "=" 40) ;;;
    downloader <- init "./downloads" false "best" None ;;
    results <- download_multiple_videos downloader example_urls ;;
    print_summary results.

(** ** The file run as a script: the import at its top, then the block *)
Definition program (argv : list string) : M unit :=
  if yt_dlp_found E then script argv
  else
    print "yt-dlp not found. Please install it with: pip install yt-dlp" ;;;
    sys_exit 1.

End Program.

Arguments ret {E A} a.
Arguments bind {E A B} m k.
Arguments try_except {E A} body handler.
Arguments call {E A} c f.

(** ** A concrete environment

    One behaviour of the collaborators, used to run the definitions: the
    world is the list of URLs fetched so far, newest first. *)
Module Sample.

Definition clip : Info :=
  {| info_title := Some (PyStr "Clip"); info_duration := Some (PyInt 125) |}.
Definition bare : Info := {| info_title := None; info_duration := None |}.
(** Both keys present and bound to [None]. *)
Definition null : Info :=
  {| info_title := Some PyNone; info_duration := Some PyNone |}.
(** A duration of twelve and a half seconds. *)
Definition live : Info :=
  {| info_title := Some (PyStr "Stream"); info_duration := Some (PyFloat 12.5%float) |}.

Definition unavailable : PyExc :=
  {| exc_class := OtherException; exc_str := "ERROR: Video unavailable" |}.
Definition broken_pipe : PyExc :=
  {| exc_class := OtherException; exc_str := "ERROR: unable to download video data" |}.
Definition denied : PyExc :=
  {| exc_class := OtherException; exc_str := "[Errno 13] Permission denied: '/proc/out'" |}.
Definition no_such_file (path : string) : PyExc :=
  {| exc_class := FileNotFoundError;
     exc_str := "[Errno 2] No such file or directory: '" ++ path ++ "'" |}.

Definition mkdir (path : string) (w : list string) : (PyExc + unit) * list string :=
  if String.eqb path "/proc/out" then (inl denied, w) else (inr tt, w).

Definition read_lines (path : string) (w : list string)
    : (PyExc + list string) * list string :=
  if String.eqb path "urls.txt" then
    (inr [ "# favourites" ++ PyStr.nl;
           PyStr.nl;
           "  https://example.org/a  " ++ PyStr.nl;
           "   " ++ PyStr.nl;
           " # kept: the line does not start with the hash sign" ++ PyStr.nl;
           "https://example.org/gone" ], w)
  else (inl (no_such_file path), w).

Definition extract_info (opts : YdlOpts) (url : string) (w : list string)
    : (PyExc + option Info) * list string :=
  if String.eqb url "https://example.org/gone" then (inl unavailable, w)
  else if String.eqb url "https://example.org/void" then (inr None, w)
  else if String.eqb url "https://example.org/bare" then (inr (Some bare), w)
  else if String.eqb url "https://example.org/null" then (inr (Some null), w)
  else if String.eqb url "https://example.org/live" then (inr (Some live), w)
  else (inr (Some clip), w).

Definition download (opts : YdlOpts) (url : string) (w : list string)
    : (PyExc + Z) * list string :=
  if String.eqb url "https://example.org/cut" then (inl broken_pipe, w)
  else (inr 0, url :: w).

(** The namespace of a command line that sets at most [--file] and URLs. *)
Definition defaults_with (file : option string) (urls : list string) : Args :=
  {| arg_urls := urls; arg_file := file; arg_output := "./downloads";
     arg_audio_only := false; arg_quality := "best"; arg_format := None |}.

(** A fragment of the command line, enough for the runs below. *)
Definition parse (argv : list string) : Z + Args :=
  match argv with
  | ["--bogus"] => inl 2
  | ["-a"] =>
      inr {| arg_urls := []; arg_file := None; arg_output := "./downloads";
             arg_audio_only := true; arg_quality := "best"; arg_format := None |}
  | ["-o"; dir] =>
      inr {| arg_urls := []; arg_file := None; arg_output := dir;
             arg_audio_only := false; arg_quality := "best"; arg_format := None |}
  | "-q" :: q :: rest =>
      inr {| arg_urls := rest; arg_file := None; arg_output := "./downloads";
             arg_audio_only := false; arg_quality := q; arg_format := None |}
  | "-f" :: path :: rest => inr (defaults_with (Some path) rest)
  | _ => inr (defaults_with None argv)
  end.

(** Python's float operations on the floats of these runs: [repr] on
    0.0 and 12.5, the conversion of an int below 2^53, [x // n] and
    [x % n] for [0 <= x < n]. *)
Definition repr (x : PrimFloat.float) : string :=
  if PrimFloat.eqb x 12.5%float then "12.5" else "0.0".

Definition of_int (z : Z) : PyExc + PrimFloat.float :=
  inr (PrimFloat.of_uint63 (Uint63.of_Z z)).

Definition floordiv (x : PrimFloat.float) (n : Z) : PrimFloat.float := PrimFloat.zero.

Definition modulo (x : PrimFloat.float) (n : Z) : PrimFloat.float := x.

(** [s % n] for a [str] without conversion specifier. *)
Definition percent (s : string) (n : Z) : PyExc + PyVal :=
  inl {| exc_class := TypeError;
         exc_str := "not all arguments converted during string formatting" |}.

Definition env : Env :=
  {| World := list string;
     fs_mkdir := mkdir;
     fs_absolute := fun path _ => "/home/user/" ++ path;
     path_join := fun a b => a ++ "/" ++ b;
     fs_read_lines := read_lines;
     ydl_extract_info := extract_info;
     ydl_download := download;
     parse_args := parse;
     yt_dlp_found := true;
     float_repr := repr;
     float_of_int := of_int;
     float_floordiv := floordiv;
     float_mod := modulo;
     str_percent := percent |}.

Definition start : State env :=
  {| world := ([] : World env); printed := []; calls := [] |}.

Definition downloader : YouTubeDownloader :=
  {| download_path := "./downloads";
     ydl_opts := {|
       outtmpl := "./downloads/%(title)s.%(ext)s";
       ignoreerrors := true;
       no_warnings := false;
       extractaudio := false;
       audioformat := None;
       format := "bestvideo[ext=mp4]+bestaudio[ext=m4a]/best[ext=mp4]/best" |} |}.

End Sample.

(** * Properties *)

(** ** Strings *)
Module PyStrFacts.
Import PyStr.

(** Every character of [s] satisfies [f]. *)
Fixpoint all_chars (f : ascii -> bool) (s : string) : bool :=
  match s with
  | EmptyString => true
  | String c s' => f c && all_chars f s'
  end.

(** The last character of [s], if any. *)
Fixpoint last_char (s : string) : option ascii :=
  match s with
  | EmptyString => None
  | String c EmptyString => Some c
  | String _ s' => last_char s'
  end.

Definition first_char (s : string) : option ascii :=
  match s with
  | EmptyString => None
  | String c _ => Some c
  end.

Lemma rstrip_empty_iff f s : rstrip f s = "" <-> all_chars f s = true.
Proof.
  induction s as [|c s IH]; simpl.
  - tauto.
  - destruct (rstrip f s) eqn:R.
    + destruct (f c); simpl.
      * tauto.
      * split; discriminate.
    + split; [discriminate|].
      intros H. apply andb_true_iff in H. destruct H as [_ H].
      apply IH in H. discriminate.
Qed.

(** [rstrip] removes a suffix made of stripped characters only. *)
Lemma rstrip_split f s :
  exists suffix, s = rstrip f s ++ suffix /\ all_chars f suffix = true.
Proof.
  induction s as [|c s [suffix [Hs Ha]]]; simpl.
  - exists "". auto.
  - destruct (rstrip f s) eqn:R.
    + destruct (f c) eqn:Fc.
      * exists (String c s). split; [reflexivity|].
        simpl. rewrite Fc. simpl. apply rstrip_empty_iff. exact R.
      * exists suffix. simpl in Hs. simpl. split; [congruence | exact Ha].
    + exists suffix. split; [|exact Ha].
      simpl. f_equal. exact Hs.
Qed.

(** What [rstrip] leaves does not end in a stripped character. *)
Lemma rstrip_last f s c : last_char (rstrip f s) = Some c -> f c = false.
Proof.
  revert c. induction s as [|a s IH]; simpl; intros c H.
  - discriminate.
  - destruct (rstrip f s) eqn:R.
    + destruct (f a) eqn:Fa; simpl in H; [discriminate|].
      inversion H; subst. exact Fa.
    + apply IH. exact H.
Qed.

(** A string that does not end in a stripped character is left as it is. *)
Lemma rstrip_fixed f s :
  (forall c, last_char s = Some c -> f c = false) -> rstrip f s = s.
Proof.
  induction s as [|a s IH]; simpl; intros H; [reflexivity|].
  destruct s as [|b s].
  - simpl. rewrite (H a eq_refl). reflexivity.
  - rewrite IH by exact H. reflexivity.
Qed.

Lemma rstrip_append_stripped f s suffix :
  all_chars f suffix = true -> rstrip f (s ++ suffix) = rstrip f s.
Proof.
  intros Ha. induction s as [|a s IH]; simpl.
  - apply rstrip_empty_iff. exact Ha.
  - rewrite IH. reflexivity.
Qed.

Lemma lstrip_split f s :
  exists pre, s = pre ++ lstrip f s /\ all_chars f pre = true.
Proof.
  induction s as [|c s [pre [Hs Ha]]]; simpl.
  - exists "". auto.
  - destruct (f c) eqn:Fc.
    + exists (String c pre). simpl. rewrite Fc, Ha. split; [congruence | reflexivity].
    + exists "". auto.
Qed.

Lemma lstrip_first f s c : first_char (lstrip f s) = Some c -> f c = false.
Proof.
  induction s as [|a s IH]; simpl; intros H; [discriminate|].
  destruct (f a) eqn:Fa; [auto|].
  simpl in H. inversion H; subst. exact Fa.
Qed.

Lemma lstrip_empty_iff f s : lstrip f s = "" <-> all_chars f s = true.
Proof.
  induction s as [|c s IH]; simpl.
  - tauto.
  - destruct (f c); simpl; [exact IH|].
    split; discriminate.
Qed.

Lemma all_chars_app f a b :
  all_chars f (a ++ b) = all_chars f a && all_chars f b.
Proof.
  induction a as [|c a IH]; simpl; [reflexivity|].
  rewrite IH. apply andb_assoc.
Qed.

(** [strip] is empty exactly on the strings made of whitespace only. *)
Lemma strip_empty_iff s : strip s = "" <-> all_chars isspace s = true.
Proof.
  unfold strip. rewrite rstrip_empty_iff.
  destruct (lstrip_split isspace s) as [pre [Hs Ha]].
  split; intros H.
  - rewrite Hs, all_chars_app, Ha, H. reflexivity.
  - destruct (lstrip isspace s) as [|c r] eqn:L; [reflexivity|].
    assert (Fc : isspace c = false) by (apply (lstrip_first isspace s); rewrite L; reflexivity).
    apply lstrip_empty_iff in H. congruence.
Qed.

Lemma truthy_false_iff s : truthy s = false <-> s = "".
Proof. destruct s; simpl; split; congruence. Qed.

Lemma startswith_hash s :
  startswith "#" s = true <-> exists rest, s = String "#"%char rest.
Proof.
  destruct s as [|c s].
  - simpl. split; [discriminate | intros [r Hr]; discriminate].
  - change (startswith "#" (String c s)) with (Ascii.eqb "#"%char c && true).
    rewrite andb_true_r. rewrite Ascii.eqb_eq.
    split; [intros <-; eauto | intros [r Hr]; congruence].
Qed.

Lemma all_p_is_mul s :
  all_chars (Ascii.eqb "p"%char) s = true -> s = mul "p" (String.length s).
Proof.
  induction s as [|c s IH]; intros H; [reflexivity|].
  change (Ascii.eqb "p"%char c && all_chars (Ascii.eqb "p"%char) s = true) in H.
  apply andb_true_iff in H. destruct H as [Hc Hs].
  apply Ascii.eqb_eq in Hc. subst c. simpl. f_equal. auto.
Qed.

End PyStrFacts.

Arguments world {E} s.
Arguments printed {E} s.
Arguments calls {E} s.

(** ** Single steps of a run *)
Section Steps.

Variable E : Env.

(** The state after printing [lines]. *)
Definition says (s : State E) (lines : list string) : State E :=
  {| world := world s; printed := printed s ++ lines; calls := calls s |}.

(** The state after the call [c] left the world as [w]. *)
Definition called (s : State E) (c : Call) (w : World E) : State E :=
  {| world := w; printed := printed s; calls := calls s ++ [c] |}.

(** The URLs probed, in the order of the calls. *)
Fixpoint probed (cs : list Call) : list string :=
  match cs with
  | [] => []
  | Probe _ url :: rest => url :: probed rest
  | _ :: rest => probed rest
  end.

Definition title_of (info : Info) : PyVal :=
  get_or (info_title info) (PyStr "Unknown").

Definition duration_of (info : Info) : PyVal :=
  get_or (info_duration info) (PyInt 0).

(** The first line [download_single_video] prints after the probe. *)
Definition title_line (info : Info) : string :=
  "Downloading: " ++ py_str E (title_of info).

(** What follows it before the fetch: nothing for a false duration, the
    duration line for a true one, or the exception its f-string raises. *)
Definition duration_note (info : Info) : Exc (list string) :=
  if truthy_val (duration_of info) then
    exc_bind (duration_text E (duration_of info)) (fun line => inr [line])
  else inr [].

Definition error_line (url : string) (e : PyExc) : string :=
  "Error downloading " ++ url ++ ": " ++ exc_str e.

Lemma says_nil s : says s [] = s.
Proof. destruct s. unfold says. simpl. rewrite app_nil_r. reflexivity. Qed.

Lemma says_says s a b : says (says s a) b = says s (a ++ b).
Proof. unfold says. simpl. rewrite app_assoc. reflexivity. Qed.

Lemma print_says line s : print E line s = (Ok tt, says s [line]).
Proof. reflexivity. Qed.

Lemma print_all_says lines s : print_all E lines s = (Ok tt, says s lines).
Proof.
  revert s. induction lines as [|l lines IH]; intros s.
  - simpl. rewrite says_nil. reflexivity.
  - simpl. unfold bind. rewrite print_says, IH, says_says. reflexivity.
Qed.

Lemma probed_app a b : probed (a ++ b) = (probed a ++ probed b)%list.
Proof.
  induction a as [|c a IH]; simpl; [reflexivity|].
  destruct c; simpl; rewrite IH; reflexivity.
Qed.

Lemma dispatch_app a b :
  filter is_dispatch (a ++ b) = (filter is_dispatch a ++ filter is_dispatch b)%list.
Proof. apply filter_app. Qed.

Variable self : YouTubeDownloader.

Let opts := ydl_opts self.

(** The probe raises: one error record, no fetch. *)
Lemma single_probe_raises url s e w :
  ydl_extract_info E opts url (world s) = (inl e, w) ->
  download_single_video E self url s =
    (Ok (error_result url (exc_str e)),
     says (called s (Probe opts url) w) [error_line url e]).
Proof.
  intros H. unfold download_single_video, try_except, bind, call.
  fold opts. rewrite H. reflexivity.
Qed.

(** The probe hands back [None]: the attribute lookup raises. *)
Lemma single_probe_none url s w :
  ydl_extract_info E opts url (world s) = (inr None, w) ->
  download_single_video E self url s =
    (Ok (error_result url (exc_str none_has_no_get)),
     says (called s (Probe opts url) w) [error_line url none_has_no_get]).
Proof.
  intros H. unfold download_single_video, try_except, bind, call.
  fold opts. rewrite H. reflexivity.
Qed.

Ltac run_single H1 :=
  unfold download_single_video, try_except, bind, call;
  fold opts; rewrite H1; cbn [world printed calls print];
  unfold duration_note, title_line, title_of, duration_of in *.

(** The f-string of the duration line raises: the title has been
    printed, the fetch is not called. *)
Lemma single_note_raises url s info w1 e :
  ydl_extract_info E opts url (world s) = (inr (Some info), w1) ->
  duration_note info = inl e ->
  download_single_video E self url s =
    (Ok (error_result url (exc_str e)),
     says (called s (Probe opts url) w1) [title_line info; error_line url e]).
Proof.
  intros H1 H2. run_single H1.
  destruct (truthy_val (get_or (info_duration info) (PyInt 0))); [|discriminate].
  unfold lift.
  destruct (duration_text E (get_or (info_duration info) (PyInt 0))) as [e'|line];
    [|discriminate].
  inversion H2; subst e'. unfold says, called. cbn [world printed calls].
  rewrite <- ?app_assoc. reflexivity.
Qed.

(** The fetch raises after a probe that returned metadata. *)
Lemma single_fetch_raises url s info w1 lines e w2 :
  ydl_extract_info E opts url (world s) = (inr (Some info), w1) ->
  duration_note info = inr lines ->
  ydl_download E opts url w1 = (inl e, w2) ->
  download_single_video E self url s =
    (Ok (error_result url (exc_str e)),
     says (called (says (called s (Probe opts url) w1) (title_line info :: lines))
                  (Fetch opts url) w2)
          [error_line url e]).
Proof.
  intros H1 H2 H3. run_single H1.
  destruct (truthy_val (get_or (info_duration info) (PyInt 0))).
  - unfold lift.
    destruct (duration_text E (get_or (info_duration info) (PyInt 0))) as [e'|line];
      [discriminate|].
    inversion H2; subst lines.
    cbn [ret print world printed calls]. rewrite H3.
    unfold says, called. cbn [world printed calls].
    rewrite <- ?app_assoc. reflexivity.
  - inversion H2; subst lines.
    cbn [ret print world printed calls]. rewrite H3.
    unfold says, called. cbn [world printed calls].
    rewrite <- ?app_assoc. reflexivity.
Qed.

(** Probe and fetch both return. *)
Lemma single_fetch_returns url s info w1 lines code w2 :
  ydl_extract_info E opts url (world s) = (inr (Some info), w1) ->
  duration_note info = inr lines ->
  ydl_download E opts url w1 = (inr code, w2) ->
  download_single_video E self url s =
    (Ok (success_result url (title_of info) (duration_of info)),
     called (says (called s (Probe opts url) w1) (title_line info :: lines))
            (Fetch opts url) w2).
Proof.
  intros H1 H2 H3. run_single H1.
  destruct (truthy_val (get_or (info_duration info) (PyInt 0))).
  - unfold lift.
    destruct (duration_text E (get_or (info_duration info) (PyInt 0))) as [e'|line];
      [discriminate|].
    inversion H2; subst lines.
    cbn [ret print world printed calls]. rewrite H3.
    unfold says, called. cbn [world printed calls].
    rewrite <- ?app_assoc. reflexivity.
  - inversion H2; subst lines.
    cbn [ret print world printed calls]. rewrite H3.
    unfold says, called. cbn [world printed calls].
    rewrite <- ?app_assoc. reflexivity.
Qed.

(** The collaborator raises [e] for [url] in the world of [s]: in the
    probe, or in the fetch the script goes on to call. *)
Definition fails_with (url : string) (s : State E) (e : PyExc) : Prop :=
  (exists w, ydl_extract_info E opts url (world s) = (inl e, w))
  \/ (exists info w1 lines w2,
        ydl_extract_info E opts url (world s) = (inr (Some info), w1)
        /\ duration_note info = inr lines
        /\ ydl_download E opts url w1 = (inl e, w2)).

(** The URL is processed to the end: the probe returns metadata, the
    lines about it are printed and the fetch returns. *)
Definition succeeds (url : string) (s : State E) : Prop :=
  exists info w1 lines code w2,
    ydl_extract_info E opts url (world s) = (inr (Some info), w1)
    /\ duration_note info = inr lines
    /\ ydl_download E opts url w1 = (inr code, w2).

(** [download_single_video] always returns a record for its URL, and
    probes that URL once. *)
Lemma single_returns url s :
  exists r s',
    download_single_video E self url s = (Ok r, s')
    /\ r_url r = url
    /\ probed (calls s') = (probed (calls s) ++ [url])%list
    /\ (succeeds url s -> r_status r = success)
    /\ (forall e, fails_with url s e -> r = error_result url (exc_str e)).
Proof.
  destruct (ydl_extract_info E opts url (world s)) as [[e|[info|]] w1] eqn:H1.
  - eexists _, _. split; [apply (single_probe_raises _ _ _ _ H1)|].
    split; [reflexivity|]. split.
    { cbn [says called calls]. rewrite probed_app. reflexivity. }
    split.
    + intros (info & w & lines & code & w2 & Hp & _). congruence.
    + intros e' [[w Hp]|(info & w & lines & w2 & Hp & _)]; congruence.
  - destruct (duration_note info) as [e|lines] eqn:Hn.
    { eexists _, _. split; [apply (single_note_raises _ _ _ _ _ H1 Hn)|].
      split; [reflexivity|]. split.
      { cbn [says called calls]. rewrite probed_app. reflexivity. }
      split.
      + intros (info' & w & lines & code & w2 & Hp & Hn' & _).
        rewrite Hp in H1. inversion H1; subst. congruence.
      + intros e' [[w Hp]|(info' & w & lines & w2 & Hp & Hn' & _)]; [congruence|].
        rewrite Hp in H1. inversion H1; subst. congruence. }
    destruct (ydl_download E opts url w1) as [[e|code] w2] eqn:H2.
    + eexists _, _. split; [apply (single_fetch_raises _ _ _ _ _ _ _ H1 Hn H2)|].
      split; [reflexivity|]. split.
      { cbn [says called calls]. rewrite !probed_app. simpl.
        rewrite <- app_assoc. reflexivity. }
      split.
      * intros (info' & w & lines' & code & w2' & Hp & _ & Hd).
        rewrite Hp in H1. inversion H1; subst. congruence.
      * intros e' [[w Hp]|(info' & w & lines' & w2' & Hp & _ & Hd)]; [congruence|].
        rewrite Hp in H1. inversion H1; subst. congruence.
    + eexists _, _. split; [apply (single_fetch_returns _ _ _ _ _ _ _ H1 Hn H2)|].
      split; [reflexivity|]. split.
      { cbn [says called calls]. rewrite !probed_app. simpl.
        rewrite <- app_assoc. reflexivity. }
      split; [reflexivity|].
      intros e' [[w Hp]|(info' & w & lines' & w2' & Hp & _ & Hd)]; [congruence|].
      rewrite Hp in H1. inversion H1; subst. congruence.
  - eexists _, _. split; [apply (single_probe_none _ _ _ H1)|].
    split; [reflexivity|]. split.
    { cbn [says called calls]. rewrite probed_app. reflexivity. }
    split.
    + intros (info & w & lines & code & w2 & Hp & _). congruence.
    + intros e' [[w Hp]|(info & w & lines & w2 & Hp & _)]; congruence.
Qed.

End Steps.

(** ** The dispatch loop *)
Section Loop.

Variable E : Env.
Variable self : YouTubeDownloader.

(** The state in which the loop turns to the URL at position [j]. *)
Definition loop_state (total : nat) (i : Z) (urls : list string)
    (acc : list Result) (s : State E) (j : nat) : State E :=
  snd (download_loop E self total i (firstn j urls) acc s).

Definition processing_line (total : nat) (i : Z) (url : string) : string :=
  PyStr.nl ++ "[" ++ PyStr.of_int i ++ "/" ++ PyStr.of_int (Z.of_nat total)
    ++ "] Processing: " ++ url.

Lemma loop_cons total i url rest acc s r s2 :
  download_single_video E self url (says E s [processing_line total i url]) = (Ok r, s2) ->
  download_loop E self total i (url :: rest) acc s =
    download_loop E self total (i + 1) rest (acc ++ [r]) s2.
Proof.
  intros H. cbn [download_loop]. unfold bind at 1. rewrite print_says.
  unfold bind at 1. fold (processing_line total i url). rewrite H. reflexivity.
Qed.

(** The loop returns; it appends one record per URL, in order, probes the
    URLs in order, and each record reflects what the collaborator did in
    the state the loop had reached. *)
Lemma loop_indexed urls : forall total i acc s,
  exists rs s',
    download_loop E self total i urls acc s = (Ok (acc ++ rs)%list, s')
    /\ map r_url rs = urls
    /\ probed (calls s') = (probed (calls s) ++ urls)%list
    /\ forall j u, nth_error urls j = Some u ->
         exists r, nth_error rs j = Some r
           /\ (succeeds E self u (loop_state total i urls acc s j) ->
               r_status r = success)
           /\ (forall e, fails_with E self u (loop_state total i urls acc s j) e ->
               r = error_result u (exc_str e)).
Proof.
  induction urls as [|url rest IH]; intros total i acc s.
  - exists [], s. cbn [download_loop]. unfold ret. rewrite !app_nil_r.
    repeat split. intros [|j] u H; discriminate.
  - set (s1 := says E s [processing_line total i url]).
    destruct (single_returns E self url s1) as (r & s2 & Hrun & Hurl & Hprobe & Hok & Hbad).
    destruct (IH total (i + 1) (acc ++ [r])%list s2) as (rs & s' & Hloop & Hmap & Hprobes & Hidx).
    exists (r :: rs), s'.
    rewrite (loop_cons _ _ _ _ _ _ _ _ Hrun), Hloop, <- app_assoc.
    split; [reflexivity|]. split; [simpl; congruence|]. split.
    { rewrite Hprobes, Hprobe. subst s1. cbn [says calls].
      rewrite <- app_assoc. reflexivity. }
    intros [|j] u Hu.
    + inversion Hu; subst u. exists r. split; [reflexivity|].
      unfold loop_state. cbn [firstn download_loop ret snd]. auto.
    + destruct (Hidx j u Hu) as (r' & Hr' & Hok' & Hbad').
      exists r'. split; [exact Hr'|].
      unfold loop_state in *. cbn [firstn].
      rewrite (loop_cons _ _ _ _ _ _ _ _ Hrun). auto.
Qed.

(** What [download_multiple_videos] prints before the loop. *)
Definition header_lines (urls : list string) (s : State E) : list string :=
  [ "Starting download of " ++ PyStr.of_int (Z.of_nat (List.length urls)) ++ " videos...";
    "Download directory: " ++ fs_absolute E (download_path self) (world s);
    PyStr.mul "-" 50 ].

Lemma multiple_is_loop urls s :
  download_multiple_videos E self urls s =
    download_loop E self (List.length urls) 1 urls [] (says E s (header_lines urls s)).
Proof.
  unfold download_multiple_videos, bind, ask. rewrite !print_says.
  cbn [says world]. rewrite !says_says. reflexivity.
Qed.

(** The state in which [download_multiple_videos] turns to URL [k]
    (counted from 0). *)
Definition state_before (urls : list string) (s : State E) (k : nat) : State E :=
  loop_state (List.length urls) 1 urls [] (says E s (header_lines urls s)) k.

Lemma multiple_indexed urls s :
  exists rs s',
    download_multiple_videos E self urls s = (Ok rs, s')
    /\ map r_url rs = urls
    /\ probed (calls s') = (probed (calls s) ++ urls)%list
    /\ forall j u, nth_error urls j = Some u ->
         exists r, nth_error rs j = Some r
           /\ (succeeds E self u (state_before urls s j) -> r_status r = success)
           /\ (forall e, fails_with E self u (state_before urls s j) e ->
               r = error_result u (exc_str e)).
Proof.
  rewrite multiple_is_loop.
  destruct (loop_indexed urls (List.length urls) 1 [] (says E s (header_lines urls s)))
    as (rs & s' & Hloop & Hmap & Hprobes & Hidx).
  exists rs, s'. auto.
Qed.

(** ** The URL-list file *)
Definition file_error_line (file_path : string) (e : PyExc) : string :=
  match exc_class e with
  | FileNotFoundError => "Error: File '" ++ file_path ++ "' not found."
  | _ => "Error reading file '" ++ file_path ++ "': " ++ exc_str e
  end.

Lemma from_file_unreadable file_path s e w :
  fs_read_lines E file_path (world s) = (inl e, w) ->
  download_from_file E self file_path s =
    (Ok [], says E (called E s (OpenRead file_path) w) [file_error_line file_path e]).
Proof.
  intros H. unfold download_from_file, try_except, bind, call. rewrite H.
  unfold file_error_line. destruct (exc_class e); reflexivity.
Qed.

Lemma from_file_readable file_path s lines w :
  fs_read_lines E file_path (world s) = (inr lines, w) ->
  download_from_file E self file_path s =
    download_multiple_videos E self (parse_url_lines lines)
      (called E s (OpenRead file_path) w).
Proof.
  intros H. unfold download_from_file, try_except, bind at 1, call. rewrite H.
  fold (called E s (OpenRead file_path) w).
  destruct (multiple_indexed (parse_url_lines lines) (called E s (OpenRead file_path) w))
    as (rs & s' & Hrun & _).
  rewrite Hrun. reflexivity.
Qed.

End Loop.

(** ** The summary *)

(** The sum of a list of integers, as a recursion on the list. *)
Fixpoint sum_Z (l : list Z) : Z :=
  match l with
  | [] => 0
  | x :: rest => x + sum_Z rest
  end.

(** Hours, minutes and seconds recombine to the total; minutes and seconds
    stay below 60, whatever the sign of the total. *)
Lemma hms_decompose t :
  t = 3600 * (t / 3600) + 60 * ((t mod 3600) / 60) + t mod 60
  /\ 0 <= (t mod 3600) / 60 < 60
  /\ 0 <= t mod 60 < 60.
Proof. Z.div_mod_to_equations. lia. Qed.

Lemma all_success_filters rs :
  (forall r, In r rs -> r_status r = success) ->
  failed rs = [] /\ successful rs = rs.
Proof.
  induction rs as [|r rs IH]; intros H; [split; reflexivity|].
  destruct IH as [Hf Hs]; [intros r' Hr'; apply H; right; exact Hr'|].
  unfold failed, successful in *. simpl.
  rewrite (H r (or_introl eq_refl)). simpl. rewrite Hf, Hs. split; reflexivity.
Qed.

(** A result list with an error record at [k] and successes elsewhere. *)
Lemma one_failure rs : forall k err,
  nth_error rs k = Some err ->
  r_status err = error ->
  (forall j r, j <> k -> nth_error rs j = Some r -> r_status r = success) ->
  failed rs = [err]
  /\ List.length (successful rs) = (List.length rs - 1)%nat.
Proof.
  induction rs as [|r rs IH]; intros k err Hk Herr Hothers.
  - destruct k; discriminate.
  - destruct k as [|k].
    + inversion Hk; subst r.
      destruct (all_success_filters rs) as [Hf Hs].
      { intros r' Hr'. destruct (In_nth_error _ _ Hr') as [j Hj].
        apply (Hothers (S j) r'); [discriminate | exact Hj]. }
      unfold failed, successful in *. simpl. rewrite Herr. simpl.
      rewrite Hf, Hs. split; [reflexivity | lia].
    + simpl in Hk.
      assert (Hr : r_status r = success) by (apply (Hothers 0%nat r); [discriminate | reflexivity]).
      destruct (IH k err Hk Herr) as (Hf & Hs).
      { intros j r' Hj Hr'. apply (Hothers (S j) r'); [congruence | exact Hr']. }
      unfold failed, successful in *. simpl. rewrite Hr. simpl.
      rewrite Hf, Hs. split; [reflexivity|].
      assert (List.length rs <> 0)%nat by (destruct rs; [destruct k; discriminate | discriminate]).
      lia.
Qed.

Section Summary.

Variable E : Env.

Definition count_lines (results : list Result) : list string :=
  [ PyStr.nl ++ PyStr.mul "=" 60;
    "DOWNLOAD SUMMARY :3";
    PyStr.mul "=" 60;
    "Total videos processed: " ++ PyStr.of_int (Z.of_nat (List.length results));
    "Successfully downloaded: "
      ++ PyStr.of_int (Z.of_nat (List.length (successful results)));
    "Failed downloads: " ++ PyStr.of_int (Z.of_nat (List.length (failed results))) ].

Definition failure_block (results : list Result) : list string :=
  match failed results with
  | [] => []
  | _ => (PyStr.nl ++ "Failed downloads:") :: map failure_line (failed results)
  end.

(** The duration line of an integer total. *)
Definition hms_line (total : Z) : string :=
  "Total duration: " ++ PyStr.of_int (total / 3600) ++ "h "
    ++ PyStr.of_int ((total mod 3600) / 60) ++ "m "
    ++ PyStr.of_int (total mod 60) ++ "s".

(** The integer a duration holds, if it is one. *)
Definition whole (v : PyVal) : Z :=
  match v with
  | PyInt z => z
  | _ => 0
  end.

(** Every success record carries an integer duration. *)
Definition whole_durations (results : list Result) : Prop :=
  forall r, In r results -> r_status r = success -> exists d, r_duration r = PyInt d.

(** The sum of the integer durations of the success records. *)
Definition whole_total (results : list Result) : Z :=
  sum_Z (map (fun r => whole (r_duration r)) (successful results)).

Definition duration_block (results : list Result) : list string :=
  match successful results with
  | [] => []
  | _ => [hms_line (whole_total results)]
  end.

Definition summary_lines (results : list Result) : list string :=
  (count_lines results ++ duration_block results ++ failure_block results)%list.

(** [print_summary], step by step: the counts are printed first; the
    total of a non-empty list of successes may raise, and then nothing
    more is printed. *)
Lemma print_summary_run results s :
  print_summary E results s =
    match successful results with
    | [] => (Ok tt, says E s (count_lines results ++ failure_block results))
    | _ :: _ =>
        match exc_bind (total_duration E results) (duration_line E) with
        | inl e => (Raise e, says E s (count_lines results))
        | inr line =>
            (Ok tt, says E s (count_lines results ++ line :: failure_block results))
        end
    end.
Proof.
  unfold print_summary, failure_block, count_lines, bind.
  rewrite !print_says, !says_says. cbn [app].
  destruct (successful results) as [|r1 rs1] eqn:Hs.
  - unfold ret. destruct (failed results) as [|r2 rs2] eqn:Hf.
    + reflexivity.
    + unfold bind. rewrite print_says, print_all_says, !says_says. reflexivity.
  - unfold lift, exc_bind.
    destruct (total_duration E results) as [e|total]; [reflexivity|].
    destruct (duration_line E total) as [e|line]; [reflexivity|].
    rewrite print_says, says_says.
    destruct (failed results) as [|r2 rs2] eqn:Hf.
    + unfold ret. reflexivity.
    + unfold bind. rewrite print_says, print_all_says, !says_says. reflexivity.
Qed.

Lemma py_sum_from_ints ds : forall acc,
  py_sum_from E (PyInt acc) (map PyInt ds) = inr (PyInt (acc + sum_Z ds)).
Proof.
  induction ds as [|d ds IH]; intros acc; cbn [map py_sum_from sum_Z].
  - f_equal. f_equal. lia.
  - cbn [py_add exc_bind]. rewrite IH. f_equal. f_equal. lia.
Qed.

Lemma duration_line_whole total :
  duration_line E (PyInt total) = inr (hms_line total).
Proof. reflexivity. Qed.

Lemma whole_durations_list results :
  whole_durations results ->
  map r_duration (successful results)
  = map PyInt (map (fun r => whole (r_duration r)) (successful results)).
Proof.
  unfold whole_durations, successful.
  induction results as [|r rs IH]; intros H; [reflexivity|].
  cbn [filter]. destruct (r_status r) eqn:Hst; cbn [Status_eqb].
  - destruct (H r (or_introl eq_refl) Hst) as [d Hd].
    cbn [map]. rewrite Hd. cbn [whole]. f_equal.
    apply IH. intros r' Hr'. apply H. right. exact Hr'.
  - apply IH. intros r' Hr'. apply H. right. exact Hr'.
Qed.

Lemma total_duration_whole results :
  whole_durations results ->
  total_duration E results = inr (PyInt (whole_total results)).
Proof.
  intros H. unfold total_duration, py_sum, whole_total.
  rewrite (whole_durations_list results H), py_sum_from_ints. reflexivity.
Qed.

(** With integer durations [print_summary] returns after printing the
    three blocks. *)
Lemma print_summary_says results s :
  whole_durations results ->
  print_summary E results s = (Ok tt, says E s (summary_lines results)).
Proof.
  intros H. rewrite print_summary_run. unfold summary_lines, duration_block.
  destruct (successful results) as [|r1 rs1] eqn:Hs; [reflexivity|].
  rewrite (total_duration_whole results H). cbn [exc_bind].
  rewrite duration_line_whole. reflexivity.
Qed.

(** Whatever comes of the total, the counts have been printed and the
    world and the calls are as they were. *)
Lemma print_summary_counts results s :
  exists rest,
    snd (print_summary E results s) = says E s (count_lines results ++ rest).
Proof.
  rewrite print_summary_run.
  destruct (successful results) as [|r1 rs1]; [eexists; reflexivity|].
  destruct (exc_bind (total_duration E results) (duration_line E)) as [e|line].
  - exists []. rewrite app_nil_r. reflexivity.
  - eexists. reflexivity.
Qed.

End Summary.

(** * The claims *)

(** ** Results and sources *)

(** The URLs the list file supplies to a run that starts in [s]: none
    without [--file], none when the file cannot be read. *)
Definition file_urls (E : Env) (args : Args) (s : State E) : list string :=
  if PyStr.truthy_opt (arg_file args) then
    match fs_read_lines E (PyStr.of_opt (arg_file args)) (world s) with
    | (inr lines, _) => parse_url_lines lines
    | (inl _, _) => []
    end
  else [].

Lemma gather_results_sources (E : Env) (self : YouTubeDownloader) (args : Args)
    (s : State E) :
  exists from_file from_args s',
    gather_results E self args s = (Ok (from_file ++ from_args)%list, s')
    /\ map r_url from_file = file_urls E args s
    /\ map r_url from_args = arg_urls args.
Proof.
  unfold gather_results, file_urls.
  assert (Hargs : forall s1 from_file,
             exists from_args s',
               match arg_urls args with
               | [] => ret from_file
               | _ :: _ =>
                   bind (download_multiple_videos E self (arg_urls args))
                        (fun from_args => ret (from_file ++ from_args)%list)
               end s1 = (Ok (from_file ++ from_args)%list, s')
               /\ map r_url from_args = arg_urls args).
  { intros s1 from_file. destruct (arg_urls args) as [|u us] eqn:Hu.
    - exists [], s1. rewrite app_nil_r. split; reflexivity.
    - destruct (multiple_indexed E self (u :: us) s1) as (rs & s' & Hrun & Hmap & _).
      exists rs, s'. unfold bind. rewrite Hrun. split; [reflexivity | exact Hmap]. }
  destruct (PyStr.truthy_opt (arg_file args)) eqn:Hfile.
  - set (path := PyStr.of_opt (arg_file args)).
    destruct (fs_read_lines E path (world s)) as [[e|lines] w] eqn:Hread.
    + destruct (Hargs (says E (called E s (OpenRead path) w) [file_error_line path e]) [])
        as (from_args & s' & Hrun & Hmap).
      exists [], from_args, s'. unfold bind at 1. unfold bind at 1.
      rewrite (from_file_unreadable E self path s e w Hread).
      unfold ret at 1. cbn [app]. cbn [app] in Hrun. rewrite Hrun. auto.
    + destruct (multiple_indexed E self (parse_url_lines lines) (called E s (OpenRead path) w))
        as (from_file & s1 & Hrun1 & Hmap1 & _).
      destruct (Hargs s1 from_file) as (from_args & s' & Hrun & Hmap).
      exists from_file, from_args, s'. unfold bind at 1. unfold bind at 1.
      rewrite (from_file_readable E self path s lines w Hread), Hrun1.
      unfold ret at 1. cbn [app]. rewrite Hrun. auto.
  - destruct (Hargs s []) as (from_args & s' & Hrun & Hmap).
    exists [], from_args, s'. unfold bind at 1. unfold ret at 1.
    cbn [app] in *. rewrite Hrun. auto.
Qed.

(** C1. [download_multiple_videos] returns one record per URL of its list,
    record [i] carrying URL [i]; the list [main] hands to the summary is
    the records of the file's URLs, in file order, followed by the records
    of the command-line URLs, in their order. *)
Theorem one_result_per_url_in_order (E : Env) (self : YouTubeDownloader) :
  (forall urls (s : State E),
     exists rs s',
       download_multiple_videos E self urls s = (Ok rs, s')
       /\ List.length rs = List.length urls
       /\ map r_url rs = urls
       /\ forall i u, nth_error urls i = Some u ->
            exists r, nth_error rs i = Some r /\ r_url r = u)
  /\ (forall args (s : State E),
        exists from_file from_args s',
          gather_results E self args s = (Ok (from_file ++ from_args)%list, s')
          /\ map r_url from_file = file_urls E args s
          /\ map r_url from_args = arg_urls args
          /\ map r_url (from_file ++ from_args)
             = (file_urls E args s ++ arg_urls args)%list).
Proof.
  split.
  - intros urls s.
    destruct (multiple_indexed E self urls s) as (rs & s' & Hrun & Hmap & _ & _).
    exists rs, s'. split; [exact Hrun|]. split.
    { rewrite <- Hmap. symmetry. apply length_map. }
    split; [exact Hmap|].
    intros i u Hu. rewrite <- Hmap in Hu.
    destruct (nth_error rs i) as [r|] eqn:Hr.
    + exists r. split; [reflexivity|].
      rewrite (map_nth_error r_url i rs Hr) in Hu. congruence.
    + apply nth_error_None in Hr.
      assert (nth_error (map r_url rs) i = None)
        by (apply nth_error_None; rewrite length_map; exact Hr).
      congruence.
  - intros args s.
    destruct (gather_results_sources E self args s)
      as (from_file & from_args & s' & Hrun & Hfile & Hargs).
    exists from_file, from_args, s'. repeat split; auto.
    rewrite map_app. congruence.
Qed.

(** ** Configuration *)

(** The object the constructor leaves behind once the directory exists. *)
Definition built (E : Env) (download_path : string) (audio_only : bool)
    (quality : string) (format_selector : option string) : YouTubeDownloader :=
  {| download_path := download_path;
     ydl_opts := {|
       outtmpl := path_join E download_path "%(title)s.%(ext)s";
       ignoreerrors := true;
       no_warnings := false;
       extractaudio := audio_only;
       audioformat := if audio_only then Some "mp3" else None;
       format := select_format format_selector audio_only quality |} |}.

(** The constructor raises what [mkdir] raises and nothing else. *)
Lemma init_run (E : Env) path audio_only quality format_selector (s : State E) :
  init E path audio_only quality format_selector s =
    (match fst (fs_mkdir E path (world s)) with
     | inl e => Raise e
     | inr _ => Ok (built E path audio_only quality format_selector)
     end,
     called E s (Mkdir path) (snd (fs_mkdir E path (world s)))).
Proof.
  unfold init, bind, call.
  destruct (fs_mkdir E path (world s)) as [[e|[]] w]; reflexivity.
Qed.

(** The claim of C2 fails on ["abc"]: the constructor returns, and the
    selector carries the text as it was given. *)
Lemma unparseable_quality_is_accepted :
  fst (init Sample.env "./downloads" false "abc" None Sample.start)
  = Ok {| download_path := "./downloads";
          ydl_opts := {|
            outtmpl := "./downloads/%(title)s.%(ext)s";
            ignoreerrors := true;
            no_warnings := false;
            extractaudio := false;
            audioformat := None;
            format := "best[height<=abc][ext=mp4]/best[height<=abc]" |} |}.
Proof. reflexivity. Qed.

(** C2 (amended). With no custom selector and [audio_only] false, the
    quality ["720p"] gives the selector
    [best[height<=720][ext=mp4]/best[height<=720]] and the quality ["abc"]
    gives [best[height<=abc][ext=mp4]/best[height<=abc]]: for neither does
    the constructor raise on account of the quality; it raises exactly when
    the output directory cannot be created, with that exception. *)
Theorem numeric_and_unparseable_quality (E : Env) (path : string) (s : State E) :
  (forall q,
     fst (init E path false q None s)
     = match fst (fs_mkdir E path (world s)) with
       | inl e => Raise e
       | inr _ => Ok (built E path false q None)
       end)
  /\ format (ydl_opts (built E path false "720p" None))
     = "best[height<=720][ext=mp4]/best[height<=720]"
  /\ PyStr.contains "height<=720" (format (ydl_opts (built E path false "720p" None)))
     = true
  /\ format (ydl_opts (built E path false "abc" None))
     = "best[height<=abc][ext=mp4]/best[height<=abc]".
Proof.
  split; [|repeat split].
  intros q. rewrite init_run. reflexivity.
Qed.

(** C9. For a quality other than ["best"] and ["worst"], with no custom
    selector and [audio_only] false: the quality is cut into what
    [rstrip] keeps and a run of ["p"], what is kept does not end in ["p"],
    and it is spliced as it is into both height tests of the selector; the
    constructor returns whenever the directory can be created.  So ["720"],
    ["720p"] and ["720pp"] give one selector, and ["abc"] gives a selector
    containing [height<=abc]. *)
Theorem quality_suffix_is_stripped (E : Env) (path : string) (s : State E)
    (quality : string) :
  quality <> "best" ->
  quality <> "worst" ->
  let kept := PyStr.rstrip_p quality in
  (exists n, quality = kept ++ PyStr.mul "p" n)
  /\ (forall c, PyStrFacts.last_char kept = Some c -> c <> "p"%char)
  /\ format (ydl_opts (built E path false quality None))
     = "best[height<=" ++ kept ++ "][ext=mp4]/best[height<=" ++ kept ++ "]"
  /\ fst (init E path false quality None s)
     = match fst (fs_mkdir E path (world s)) with
       | inl e => Raise e
       | inr _ => Ok (built E path false quality None)
       end
  /\ select_format None false "720" = "best[height<=720][ext=mp4]/best[height<=720]"
  /\ select_format None false "720p" = select_format None false "720"
  /\ select_format None false "720pp" = select_format None false "720"
  /\ PyStr.contains "height<=abc" (select_format None false "abc") = true.
Proof.
  intros Hbest Hworst kept.
  split.
  { destruct (PyStrFacts.rstrip_split (Ascii.eqb "p"%char) quality) as [suffix [Hs Ha]].
    exists (String.length suffix). subst kept. unfold PyStr.rstrip_p.
    rewrite <- (PyStrFacts.all_p_is_mul suffix Ha). exact Hs. }
  split.
  { intros c Hc Heq. subst c.
    apply PyStrFacts.rstrip_last in Hc. discriminate. }
  split.
  { cbn [built ydl_opts format]. unfold select_format, quality_format.
    cbn [PyStr.truthy_opt].
    apply String.eqb_neq in Hbest, Hworst. rewrite Hbest, Hworst. reflexivity. }
  split; [rewrite init_run; reflexivity|].
  repeat split.
Qed.

(** The theorem at ["1080pp"] in the sample environment. *)
Lemma quality_suffix_is_stripped_1080pp :
  "1080pp" = PyStr.rstrip_p "1080pp" ++ "pp"
  /\ format (ydl_opts (built Sample.env "./downloads" false "1080pp" None))
     = "best[height<=1080][ext=mp4]/best[height<=1080]"
  /\ fst (init Sample.env "./downloads" false "1080pp" None Sample.start)
     = Ok (built Sample.env "./downloads" false "1080pp" None).
Proof.
  assert (Hbest : "1080pp" <> "best") by discriminate.
  assert (Hworst : "1080pp" <> "worst") by discriminate.
  pose proof (quality_suffix_is_stripped Sample.env "./downloads" Sample.start
                "1080pp" Hbest Hworst) as H.
  cbv zeta in H. destruct H as (_ & _ & Hformat & Hinit & _).
  split; [reflexivity|]. split; [exact Hformat | exact Hinit].
Defined.

(** C10. The selector is chosen by precedence: a non-empty custom selector
    is taken as it is, whatever the flag and the quality; without one,
    [audio_only] gives [bestaudio/best], whatever the quality; otherwise
    it is the selector of the quality. *)
Theorem format_precedence (E : Env) (path : string) (format_selector : option string) :
  (forall custom audio_only quality,
     format_selector = Some custom -> custom <> "" ->
     format (ydl_opts (built E path audio_only quality format_selector)) = custom)
  /\ (forall quality,
        PyStr.truthy_opt format_selector = false ->
        format (ydl_opts (built E path true quality format_selector)) = "bestaudio/best")
  /\ (forall quality,
        PyStr.truthy_opt format_selector = false ->
        format (ydl_opts (built E path false quality format_selector))
        = quality_format quality)
  /\ (forall audio_only quality (s : State E) d s',
        init E path audio_only quality format_selector s = (Ok d, s') ->
        d = built E path audio_only quality format_selector).
Proof.
  split.
  { intros custom a q -> Hne. cbn [built ydl_opts format]. unfold select_format.
    destruct custom; [congruence | reflexivity]. }
  split.
  { intros q H. cbn [built ydl_opts format]. unfold select_format. rewrite H. reflexivity. }
  split.
  { intros q H. cbn [built ydl_opts format]. unfold select_format. rewrite H. reflexivity. }
  intros a q s d s' H. rewrite init_run in H.
  destruct (fst (fs_mkdir E path (world s))); inversion H; reflexivity.
Qed.

(** The three cases of the precedence on concrete arguments. *)
Lemma format_precedence_cases :
  format (ydl_opts (built Sample.env "./downloads" true "720p" (Some "18"))) = "18"
  /\ format (ydl_opts (built Sample.env "./downloads" true "720p" (Some "")))
     = "bestaudio/best"
  /\ format (ydl_opts (built Sample.env "./downloads" true "720p" None))
     = "bestaudio/best"
  /\ format (ydl_opts (built Sample.env "./downloads" false "720p" None))
     = "best[height<=720][ext=mp4]/best[height<=720]".
Proof.
  split.
  { apply (proj1 (format_precedence Sample.env "./downloads" (Some "18")) "18" true "720p");
      [reflexivity | discriminate]. }
  split.
  { apply (proj1 (proj2 (format_precedence Sample.env "./downloads" (Some ""))) "720p").
    reflexivity. }
  split.
  { apply (proj1 (proj2 (format_precedence Sample.env "./downloads" None)) "720p").
    reflexivity. }
  rewrite (proj1 (proj2 (proj2 (format_precedence Sample.env "./downloads" None))) "720p");
    reflexivity.
Defined.

(** ** Failures *)




(** ** The summary's duration *)


Lemma success_filter_is_successful (results : list Result) :
  filter (fun r => match r_status r with success => true | error => false end) results
  = successful results.
Proof.
  unfold successful. apply filter_ext. intros r. destruct (r_status r); reflexivity.
Qed.



(** ** The URL-list file *)

(** A line is whitespace-only (the empty line included). *)
Definition whitespace_only (line : string) : Prop :=
  PyStrFacts.all_chars PyStr.isspace line = true.

(** A line is a comment: it starts with the hash sign. *)
Definition comment (line : string) : Prop :=
  exists rest, line = String "#"%char rest.

(** [url] is [line] without the whitespace around it. *)
Definition trimmed (line url : string) : Prop :=
  exists before after,
    line = before ++ url ++ after
    /\ whitespace_only before
    /\ whitespace_only after
    /\ (forall c, PyStrFacts.first_char url = Some c -> PyStr.isspace c = false)
    /\ (forall c, PyStrFacts.last_char url = Some c -> PyStr.isspace c = false).

(** The candidate URLs of a file, as the specification words them: blank
    lines and comment lines give nothing, every other line gives itself,
    trimmed, in file order. *)
Inductive candidates : list string -> list string -> Prop :=
| candidates_end : candidates [] []
| candidates_skip line lines urls :
    whitespace_only line \/ comment line ->
    candidates lines urls ->
    candidates (line :: lines) urls
| candidates_keep line lines url urls :
    ~ whitespace_only line ->
    ~ comment line ->
    trimmed line url ->
    candidates lines urls ->
    candidates (line :: lines) (url :: urls).

Module FileFacts.
Import PyStr PyStrFacts.

Lemma lstrip_fixed f s :
  (forall c, first_char s = Some c -> f c = false) -> lstrip f s = s.
Proof.
  destruct s as [|a s]; simpl; intros H; [reflexivity|].
  rewrite (H a eq_refl). reflexivity.
Qed.

Lemma lstrip_append_stripped f pre s :
  all_chars f pre = true -> lstrip f (pre ++ s) = lstrip f s.
Proof.
  induction pre as [|a pre IH]; simpl; intros H; [reflexivity|].
  apply andb_true_iff in H. destruct H as [Ha Hp]. rewrite Ha. auto.
Qed.

Lemma first_char_of_rstrip f s c :
  first_char (rstrip f s) = Some c -> first_char s = Some c.
Proof.
  destruct s as [|a s]; simpl; [discriminate|].
  destruct (rstrip f s); [destruct (f a)|]; simpl; congruence.
Qed.

(** [strip] trims. *)
Lemma strip_trimmed line : trimmed line (strip line).
Proof.
  destruct (lstrip_split isspace line) as [before [Hb Hwb]].
  destruct (rstrip_split isspace (lstrip isspace line)) as [after [Ha Hwa]].
  exists before, after. unfold strip.
  split; [rewrite <- Ha; exact Hb|]. split; [exact Hwb|]. split; [exact Hwa|].
  split.
  - intros c Hc. apply first_char_of_rstrip in Hc.
    apply (lstrip_first isspace line c Hc).
  - intros c Hc. apply (rstrip_last isspace _ c Hc).
Qed.

(** Trimming has one result. *)
Lemma trimmed_is_strip line url : trimmed line url -> url = strip line.
Proof.
  intros (before & after & Hl & Hwb & Hwa & Hfirst & Hlast).
  unfold strip. subst line.
  rewrite (lstrip_append_stripped isspace before _ Hwb).
  destruct url as [|a url].
  - cbn [append]. apply lstrip_empty_iff in Hwa. rewrite Hwa. reflexivity.
  - rewrite lstrip_fixed.
    + rewrite (rstrip_append_stripped isspace _ after Hwa).
      symmetry. apply rstrip_fixed. exact Hlast.
    + intros c Hc. apply Hfirst. exact Hc.
Qed.

(** The condition of the comprehension, in the words of the claim. *)
Lemma keep_line_iff line :
  keep_line line = true <-> ~ whitespace_only line /\ ~ comment line.
Proof.
  unfold keep_line, whitespace_only, comment.
  rewrite andb_true_iff, negb_true_iff.
  rewrite <- startswith_hash, <- strip_empty_iff.
  destruct (startswith "#" line); destruct (strip line) as [|c r];
    cbn [truthy]; intuition congruence.
Qed.

Lemma skip_line_iff line :
  keep_line line = false <-> whitespace_only line \/ comment line.
Proof.
  unfold keep_line, whitespace_only, comment.
  rewrite andb_false_iff, negb_false_iff.
  rewrite <- startswith_hash, <- strip_empty_iff, truthy_false_iff.
  tauto.
Qed.

Lemma candidates_parsed lines : candidates lines (parse_url_lines lines).
Proof.
  unfold parse_url_lines.
  induction lines as [|line lines IH]; [constructor|].
  cbn [filter]. destruct (keep_line line) eqn:Hkeep.
  - apply keep_line_iff in Hkeep. destruct Hkeep as [Hw Hc].
    cbn [map]. apply candidates_keep; auto using strip_trimmed.
  - apply candidates_skip; [apply skip_line_iff; exact Hkeep | exact IH].
Qed.

Lemma candidates_unique lines urls :
  candidates lines urls -> urls = parse_url_lines lines.
Proof.
  unfold parse_url_lines.
  induction 1 as [|line lines urls Hskip _ IH|line lines url urls Hw Hc Ht _ IH].
  - reflexivity.
  - apply skip_line_iff in Hskip. cbn [filter]. rewrite Hskip. exact IH.
  - assert (Hkeep : keep_line line = true) by (apply keep_line_iff; auto).
    cbn [filter]. rewrite Hkeep. cbn [map].
    rewrite (trimmed_is_strip line url Ht), IH. reflexivity.
Qed.

End FileFacts.

(** C5. The URLs taken from the lines of a list file are the candidates
    of the specification: the lines that are neither whitespace-only nor
    start with the hash sign, each without the whitespace around it
    (its line terminator included), in file order; they are what
    [download_from_file] passes to the loop once the file has been read. *)
Theorem file_lines_are_filtered (lines : list string) :
  (forall urls, candidates lines urls <-> urls = parse_url_lines lines)
  /\ (forall (E : Env) self file_path (s : State E) w,
        fs_read_lines E file_path (world s) = (inr lines, w) ->
        download_from_file E self file_path s =
          download_multiple_videos E self (parse_url_lines lines)
            (called E s (OpenRead file_path) w)).
Proof.
  split.
  - intros urls. split.
    + apply FileFacts.candidates_unique.
    + intros ->. apply FileFacts.candidates_parsed.
  - intros E self file_path s w H. apply from_file_readable. exact H.
Qed.

(** The lines of the sample file: two URLs survive, and the indented
    comment is one of them. *)
Example sample_file_lines :
  parse_url_lines
    [ "# favourites" ++ PyStr.nl;
      PyStr.nl;
      "  https://example.org/a  " ++ PyStr.nl;
      "   " ++ PyStr.nl;
      " # kept: the line does not start with the hash sign" ++ PyStr.nl;
      "https://example.org/gone" ]
  = [ "https://example.org/a";
      "# kept: the line does not start with the hash sign";
      "https://example.org/gone" ].
Proof. reflexivity. Qed.

(** ** An unreadable list file *)

Lemma gather_unreadable (E : Env) (self : YouTubeDownloader) (args : Args)
    (path : string) (e : PyExc) (w : World E) (s : State E) :
  arg_file args = Some path ->
  path <> "" ->
  fs_read_lines E path (world s) = (inl e, w) ->
  gather_results E self args s =
    match arg_urls args with
    | [] => ret []
    | _ => download_multiple_videos E self (arg_urls args)
    end (says E (called E s (OpenRead path) w) [file_error_line path e]).
Proof.
  intros Hfile Hpath Hread. unfold gather_results. rewrite Hfile.
  destruct path as [|c path]; [congruence|].
  cbn [PyStr.truthy_opt PyStr.truthy PyStr.of_opt].
  unfold bind at 1. unfold bind at 1.
  rewrite (from_file_unreadable E self _ s e w Hread).
  unfold ret at 1. cbn [app].
  destruct (arg_urls args) as [|u us]; [reflexivity|].
  unfold bind.
  destruct (multiple_indexed E self (u :: us)
              (says E (called E s (OpenRead (String c path)) w)
                 [file_error_line (String c path) e])) as (rs & s' & Hrun & _).
  rewrite Hrun. reflexivity.
Qed.

(** C6. When the list file cannot be read (it does not exist, or the read
    raises), [download_from_file] prints one line, dispatches nothing and
    returns no record; [main] goes on: the command-line URLs are processed
    as by [download_multiple_videos] alone, and [main] ends as
    [print_summary] does on exactly their records, whose counts it
    prints. *)
Theorem unreadable_file_is_skipped (E : Env) (argv : list string) (args : Args)
    (path : string) (e : PyExc) (w : World E) (s s1 : State E)
    (downloader : YouTubeDownloader) :
  parse_args E (tl argv) = inr args ->
  arg_file args = Some path ->
  path <> "" ->
  init E (arg_output args) (arg_audio_only args) (arg_quality args) (arg_format args) s
    = (Ok downloader, s1) ->
  fs_read_lines E path (world s1) = (inl e, w) ->
  let s2 := says E (called E s1 (OpenRead path) w) [file_error_line path e] in
  download_from_file E downloader path s1 = (Ok [], s2)
  /\ filter is_dispatch (calls s2) = filter is_dispatch (calls s1)
  /\ exists rs s3,
       match arg_urls args with
       | [] => ret []
       | _ => download_multiple_videos E downloader (arg_urls args)
       end s2 = (Ok rs, s3)
       /\ map r_url rs = arg_urls args
       /\ gather_results E downloader args s1 = (Ok rs, s3)
       /\ main E argv s = print_summary E rs s3
       /\ (exists rest,
             snd (main E argv s) = says E s3 (List.app (count_lines rs) rest))
       /\ (whole_durations rs ->
           main E argv s = (Ok tt, says E s3 (summary_lines rs))).
Proof.
  intros Hparse Hfile Hpath Hinit Hread s2.
  split; [apply from_file_unreadable; exact Hread|].
  split.
  { subst s2. cbn [says called calls]. rewrite dispatch_app. cbn [filter is_dispatch].
    apply app_nil_r. }
  assert (Hcli : exists rs s3,
             match arg_urls args with
             | [] => ret []
             | _ => download_multiple_videos E downloader (arg_urls args)
             end s2 = (Ok rs, s3)
             /\ map r_url rs = arg_urls args).
  { destruct (arg_urls args) as [|u us] eqn:Hu.
    - exists [], s2. split; reflexivity.
    - destruct (multiple_indexed E downloader (u :: us) s2) as (rs & s3 & Hrun & Hmap & _).
      exists rs, s3. split; assumption. }
  destruct Hcli as (rs & s3 & Hrun & Hmap).
  assert (Hgather : gather_results E downloader args s1 = (Ok rs, s3)).
  { rewrite (gather_unreadable E downloader args path e w s1 Hfile Hpath Hread).
    exact Hrun. }
  assert (Hmain : main E argv s = print_summary E rs s3).
  { unfold main. rewrite Hparse. unfold bind at 1. rewrite Hinit.
    unfold bind at 1. rewrite Hgather. rewrite Hfile.
    destruct path as [|c path]; [congruence|]. reflexivity. }
  exists rs, s3. repeat (split; [assumption|]).
  rewrite Hmain. split.
  - apply print_summary_counts.
  - intros Hwhole. apply print_summary_says. exact Hwhole.
Qed.

(** The theorem on a run of the sample environment: a missing list file
    and one URL on the command line. *)
Lemma unreadable_file_is_skipped_sample :
  exists rs s3,
    gather_results Sample.env Sample.downloader
      (Sample.defaults_with (Some "missing.txt") ["https://example.org/a"])
      (called Sample.env Sample.start (Mkdir "./downloads") [])
    = (Ok rs, s3)
    /\ map r_url rs = ["https://example.org/a"]
    /\ main Sample.env ["downloader.py"; "-f"; "missing.txt"; "https://example.org/a"]
         Sample.start
       = print_summary Sample.env rs s3.
Proof.
  assert (Hparse : parse_args Sample.env
                     (tl ["downloader.py"; "-f"; "missing.txt"; "https://example.org/a"])
                   = inr (Sample.defaults_with (Some "missing.txt") ["https://example.org/a"]))
    by reflexivity.
  assert (Hpath : "missing.txt" <> "") by discriminate.
  assert (Hinit : init Sample.env "./downloads" false "best" None Sample.start
                  = (Ok Sample.downloader,
                     called Sample.env Sample.start (Mkdir "./downloads") []))
    by (vm_compute; reflexivity).
  assert (Hread : fs_read_lines Sample.env "missing.txt" []
                  = (inl (Sample.no_such_file "missing.txt"), []))
    by (vm_compute; reflexivity).
  destruct (unreadable_file_is_skipped Sample.env _ _ _ _ _ _ _ _
              Hparse eq_refl Hpath Hinit Hread)
    as (_ & _ & rs & s3 & _ & Hmap & Hgather & Hmain & _).
  exists rs, s3. split; [exact Hgather|]. split; [exact Hmap | exact Hmain].
Defined.

(** ** No source of URLs *)

(** The claim of C7 fails on two invocations without [--file] and without
    URLs.  With no argument at all the entry block does not call [main]:
    it dispatches its own list and prints no usage text.  With an output
    directory that cannot be created the constructor raises before the
    usage text, and the interpreter ends with status 1. *)
Lemma bare_invocation_runs_the_examples :
  (tl ["downloader.py"] = []
   /\ probed (calls (snd (script Sample.env ["downloader.py"] Sample.start)))
      = example_urls
   /\ List.length
        (filter is_dispatch (calls (snd (script Sample.env ["downloader.py"] Sample.start))))
      = 20%nat
   /\ existsb (String.eqb "No URLs provided. Use --help for usage information.")
        (printed (snd (script Sample.env ["downloader.py"] Sample.start)))
      = false)
  /\ (parse_args Sample.env (tl ["downloader.py"; "-o"; "/proc/out"])
      = inr {| arg_urls := []; arg_file := None; arg_output := "/proc/out";
               arg_audio_only := false; arg_quality := "best"; arg_format := None |}
      /\ script Sample.env ["downloader.py"; "-o"; "/proc/out"] Sample.start
         = (Raise Sample.denied,
            called Sample.env Sample.start (Mkdir "/proc/out") [])
      /\ exit_status (fst (script Sample.env ["downloader.py"; "-o"; "/proc/out"]
                             Sample.start)) = 1).
Proof. vm_compute. repeat split. Qed.

(** C7 (amended). An invocation with at least one command-line argument
    whose namespace has no [--file] value (or an empty one) and no
    positional URL dispatches nothing to the collaborator; once the output
    directory has been created it prints the usage text, and nothing
    else, and ends with status 0. *)
Theorem no_sources_prints_usage (E : Env) (argv : list string) (args : Args)
    (s : State E) :
  (1 < List.length argv)%nat ->
  parse_args E (tl argv) = inr args ->
  PyStr.truthy_opt (arg_file args) = false ->
  arg_urls args = [] ->
  let made := fs_mkdir E (arg_output args) (world s) in
  let s1 := called E s (Mkdir (arg_output args)) (snd made) in
  filter is_dispatch (calls (snd (script E argv s))) = filter is_dispatch (calls s)
  /\ match fst made with
     | inr _ =>
         script E argv s = (Ok tt, says E s1 usage_lines)
         /\ exit_status (fst (script E argv s)) = 0
     | inl e => script E argv s = (Raise e, s1)
     end.
Proof.
  intros Hargv Hparse Hfile Hurls made s1.
  assert (Hrun : script E argv s =
                 match fst made with
                 | inr _ => (Ok tt, says E s1 usage_lines)
                 | inl e => (Raise e, s1)
                 end).
  { unfold script. apply Nat.ltb_lt in Hargv. rewrite Hargv.
    unfold main. rewrite Hparse. unfold bind at 1. rewrite init_run.
    fold made. fold s1. destruct (fst made) as [e|[]]; [reflexivity|].
    unfold bind at 1. unfold gather_results. rewrite Hfile, Hurls.
    unfold bind at 1. unfold ret. cbn [negb andb].
    apply print_all_says. }
  rewrite Hrun. split.
  - assert (Hs1 : filter is_dispatch (calls s1) = filter is_dispatch (calls s)).
    { subst s1. cbn [called calls]. rewrite dispatch_app. cbn [filter is_dispatch].
      apply app_nil_r. }
    destruct (fst made); cbn [snd says calls]; exact Hs1.
  - destruct (fst made); [reflexivity | split; reflexivity].
Qed.

(** The theorem on the sample invocation with the single argument [-a]. *)
Lemma no_sources_prints_usage_sample :
  script Sample.env ["downloader.py"; "-a"] Sample.start
  = (Ok tt,
     says Sample.env (called Sample.env Sample.start (Mkdir "./downloads") [])
       usage_lines).
Proof.
  assert (Hargv : (1 < List.length ["downloader.py"; "-a"])%nat) by (simpl; lia).
  assert (Hparse : parse_args Sample.env (tl ["downloader.py"; "-a"])
                   = inr {| arg_urls := []; arg_file := None;
                            arg_output := "./downloads"; arg_audio_only := true;
                            arg_quality := "best"; arg_format := None |})
    by reflexivity.
  destruct (no_sources_prints_usage Sample.env _ _ Sample.start Hargv Hparse
              eq_refl eq_refl) as [_ Hrun].
  exact (proj1 Hrun).
Defined.

(** ** Missing metadata *)


(** A duration that is absent or an integer lets the lines before the
    fetch be printed. *)
Lemma duration_note_whole (E : Env) (info : Info) :
  info_duration info = None \/ (exists d, info_duration info = Some (PyInt d)) ->
  exists lines, duration_note E info = inr lines.
Proof.
  unfold duration_note, duration_of.
  intros [H|[d H]]; rewrite H; cbn [get_or truthy_val].
  - eexists. reflexivity.
  - destruct (negb (d =? 0)); eexists; reflexivity.
Qed.



(** * Further properties of the script *)

(** ** A second environment

    The sample environment with a library that does not raise: every
    download returns the code 1, as the library does for a failed download
    under [ignoreerrors], the file [notes.txt] holds no URL, and the
    module [yt_dlp] is not installed. *)
Module Quiet.

Definition download (opts : YdlOpts) (url : string) (w : list string)
    : (PyExc + Z) * list string :=
  (inr 1, w).

Definition read_lines (path : string) (w : list string)
    : (PyExc + list string) * list string :=
  if String.eqb path "notes.txt" then
    (inr [ "# nothing to fetch yet" ++ PyStr.nl; PyStr.nl; "#"; "  " ], w)
  else Sample.read_lines path w.

Definition env : Env :=
  {| World := list string;
     fs_mkdir := Sample.mkdir;
     fs_absolute := fun path _ => "/home/user/" ++ path;
     path_join := fun a b => a ++ "/" ++ b;
     fs_read_lines := read_lines;
     ydl_extract_info := Sample.extract_info;
     ydl_download := download;
     parse_args := Sample.parse;
     yt_dlp_found := false;
     float_repr := Sample.repr;
     float_of_int := Sample.of_int;
     float_floordiv := Sample.floordiv;
     float_mod := Sample.modulo;
     str_percent := Sample.percent |}.

Definition start : State env :=
  {| world := ([] : World env); printed := []; calls := [] |}.

End Quiet.

(** ** One URL *)
Section SingleVideo.

Variable E : Env.
Variable self : YouTubeDownloader.

(** The five ways [download_single_video] runs. *)
Lemma single_cases url (s : State E) :
  (exists e w,
     ydl_extract_info E (ydl_opts self) url (world s) = (inl e, w)
     /\ download_single_video E self url s =
          (Ok (error_result url (exc_str e)),
           says E (called E s (Probe (ydl_opts self) url) w) [error_line url e]))
  \/ (exists w,
        ydl_extract_info E (ydl_opts self) url (world s) = (inr None, w)
        /\ download_single_video E self url s =
             (Ok (error_result url (exc_str none_has_no_get)),
              says E (called E s (Probe (ydl_opts self) url) w)
                [error_line url none_has_no_get]))
  \/ (exists info w1 e,
        ydl_extract_info E (ydl_opts self) url (world s) = (inr (Some info), w1)
        /\ duration_note E info = inl e
        /\ download_single_video E self url s =
             (Ok (error_result url (exc_str e)),
              says E (called E s (Probe (ydl_opts self) url) w1)
                [title_line E info; error_line url e]))
  \/ (exists info w1 lines e w2,
        ydl_extract_info E (ydl_opts self) url (world s) = (inr (Some info), w1)
        /\ duration_note E info = inr lines
        /\ ydl_download E (ydl_opts self) url w1 = (inl e, w2)
        /\ download_single_video E self url s =
             (Ok (error_result url (exc_str e)),
              says E (called E (says E (called E s (Probe (ydl_opts self) url) w1)
                                  (title_line E info :: lines))
                        (Fetch (ydl_opts self) url) w2)
                [error_line url e]))
  \/ (exists info w1 lines code w2,
        ydl_extract_info E (ydl_opts self) url (world s) = (inr (Some info), w1)
        /\ duration_note E info = inr lines
        /\ ydl_download E (ydl_opts self) url w1 = (inr code, w2)
        /\ download_single_video E self url s =
             (Ok (success_result url (title_of info) (duration_of info)),
              called E (says E (called E s (Probe (ydl_opts self) url) w1)
                          (title_line E info :: lines))
                (Fetch (ydl_opts self) url) w2)).
Proof.
  destruct (ydl_extract_info E (ydl_opts self) url (world s)) as [[e|[info|]] w1] eqn:H1.
  - left. exists e, w1. split; [reflexivity|]. apply single_probe_raises. exact H1.
  - destruct (duration_note E info) as [e|lines] eqn:Hn.
    { right. right. left. exists info, w1, e.
      split; [reflexivity|]. split; [exact Hn|].
      apply (single_note_raises E self _ _ _ _ _ H1 Hn). }
    destruct (ydl_download E (ydl_opts self) url w1) as [[e|code] w2] eqn:H2.
    + right. right. right. left. exists info, w1, lines, e, w2.
      split; [reflexivity|]. split; [exact Hn|]. split; [exact H2|].
      apply (single_fetch_raises E self _ _ _ _ _ _ _ H1 Hn H2).
    + right. right. right. right. exists info, w1, lines, code, w2.
      split; [reflexivity|]. split; [exact Hn|]. split; [exact H2|].
      apply (single_fetch_returns E self _ _ _ _ _ _ _ H1 Hn H2).
  - right. left. exists w1. split; [reflexivity|]. apply single_probe_none. exact H1.
Qed.

Ltac single_by_cases url s H :=
  destruct (single_cases url s)
    as [(e & w & Hp & Hrun)
       |[(w & Hp & Hrun)
        |[(info & w1 & e & Hp & Hn & Hrun)
         |[(info & w1 & lines & e & w2 & Hp & Hn & Hd & Hrun)
          |(info & w1 & lines & code & w2 & Hp & Hn & Hd & Hrun)]]]];
  rewrite Hrun in H; inversion H; subst.

(** X1. A probe that returns [None] instead of metadata (what the library
    does for a failed extraction under [ignoreerrors]) gives the error
    record whose message is that of the attribute lookup on [None]; the
    fetch is not called. *)
Theorem none_from_probe_is_an_error url (s : State E) w :
  ydl_extract_info E (ydl_opts self) url (world s) = (inr None, w) ->
  exists s',
    download_single_video E self url s =
      (Ok {| r_url := url; r_title := PyStr "Unknown"; r_status := error;
             r_duration := PyInt 0;
             r_error := Some "'NoneType' object has no attribute 'get'" |}, s')
    /\ world s' = w
    /\ calls s' = (calls s ++ [Probe (ydl_opts self) url])%list
    /\ printed s' =
         List.app (printed s)
           ["Error downloading " ++ url ++ ": 'NoneType' object has no attribute 'get'"].
Proof.
  intros H. eexists. split; [apply single_probe_none; exact H|].
  repeat split.
Qed.

(** X2. [download_single_video] always returns a record.  The fetch is
    called exactly when the probe returned metadata and the lines about
    it were printed without an exception, and then right after the
    probe; in every other case the probe is the only call and the record
    is an error record. *)
Theorem fetch_only_after_metadata url (s : State E) :
  exists r s',
    download_single_video E self url s = (Ok r, s')
    /\ match fst (ydl_extract_info E (ydl_opts self) url (world s)) with
       | inr (Some info) =>
           match duration_note E info with
           | inr _ =>
               calls s' = (calls s ++ [Probe (ydl_opts self) url;
                                       Fetch (ydl_opts self) url])%list
           | inl e =>
               calls s' = (calls s ++ [Probe (ydl_opts self) url])%list
               /\ r = error_result url (exc_str e)
           end
       | _ =>
           calls s' = (calls s ++ [Probe (ydl_opts self) url])%list
           /\ r_status r = error
       end.
Proof.
  destruct (single_cases url s)
    as [(e & w & Hp & Hrun)
       |[(w & Hp & Hrun)
        |[(info & w1 & e & Hp & Hn & Hrun)
         |[(info & w1 & lines & e & w2 & Hp & Hn & Hd & Hrun)
          |(info & w1 & lines & code & w2 & Hp & Hn & Hd & Hrun)]]]];
    eexists _, _; (split; [exact Hrun|]); rewrite Hp; cbn [fst];
    rewrite ?Hn; cbn [says called calls]; rewrite <- ?app_assoc; auto.
Qed.

(** X3. The code that [download] returns is not looked at: once the probe
    has returned metadata, the lines about it have been printed and the
    download returns, the record is a success carrying what
    [info.get] gave for title and duration, whatever the code. *)
Theorem return_code_is_ignored url (s : State E) info w1 lines code w2 :
  ydl_extract_info E (ydl_opts self) url (world s) = (inr (Some info), w1) ->
  duration_note E info = inr lines ->
  ydl_download E (ydl_opts self) url w1 = (inr code, w2) ->
  exists s',
    download_single_video E self url s =
      (Ok {| r_url := url;
             r_title := match info_title info with
                        | Some title => title
                        | None => PyStr "Unknown"
                        end;
             r_status := success;
             r_duration := match info_duration info with
                           | Some duration => duration
                           | None => PyInt 0
                           end;
             r_error := None |}, s')
    /\ world s' = w2.
Proof.
  intros Hp Hn Hd. eexists. split.
  - apply (single_fetch_returns E self _ _ _ _ _ _ _ Hp Hn Hd).
  - reflexivity.
Qed.

(** A true duration whose line is printed is an integer. *)
Lemma duration_note_printed info lines :
  duration_note E info = inr lines ->
  truthy_val (duration_of info) = false \/ exists d, duration_of info = PyInt d.
Proof.
  unfold duration_note. destruct (truthy_val (duration_of info)); [|auto].
  destruct (duration_of info) as [|d|x|t]; cbn; try discriminate; eauto.
Qed.

(** A record as [download_single_video] builds it: an error message
    exactly on error records, which carry the default title and duration;
    a success record carries a duration that is false or an integer. *)
Definition well_formed (r : Result) : Prop :=
  match r_status r with
  | success =>
      r_error r = None
      /\ (truthy_val (r_duration r) = false \/ exists d, r_duration r = PyInt d)
  | error => (exists message, r_error r = Some message)
             /\ r_title r = PyStr "Unknown" /\ r_duration r = PyInt 0
  end.

Lemma single_well_formed url (s : State E) r s' :
  download_single_video E self url s = (Ok r, s') -> well_formed r /\ r_url r = url.
Proof.
  intros H. single_by_cases url s H; unfold well_formed; cbn; eauto.
  split; [|reflexivity]. split; [reflexivity|].
  apply (duration_note_printed _ _ Hn).
Qed.

(** The output only grows. *)
Lemma single_prints url (s : State E) r s' :
  download_single_video E self url s = (Ok r, s') ->
  exists lines, printed s' = (printed s ++ lines)%list.
Proof.
  intros H. single_by_cases url s H; cbn [says called printed];
    rewrite <- ?app_assoc; eauto.
Qed.

End SingleVideo.

(** The theorem X1 on the sample URL whose probe returns [None]. *)
Lemma none_from_probe_sample :
  exists s',
    download_single_video Sample.env Sample.downloader "https://example.org/void"
      Sample.start
    = (Ok (error_result "https://example.org/void"
             "'NoneType' object has no attribute 'get'"), s')
    /\ calls s' = [Probe (ydl_opts Sample.downloader) "https://example.org/void"].
Proof.
  assert (Hp : ydl_extract_info Sample.env (ydl_opts Sample.downloader)
                 "https://example.org/void" (world Sample.start) = (inr None, []))
    by reflexivity.
  destruct (none_from_probe_is_an_error Sample.env Sample.downloader _ _ _ Hp)
    as (s' & Hrun & _ & Hcalls & _).
  exists s'. split; [exact Hrun | exact Hcalls].
Defined.

(** The theorem X3 where the download returns the code 1. *)
Lemma return_code_is_ignored_quiet :
  exists s',
    download_single_video Quiet.env Sample.downloader "https://example.org/a"
      Quiet.start
    = (Ok (success_result "https://example.org/a" (PyStr "Clip") (PyInt 125)), s').
Proof.
  assert (Hp : ydl_extract_info Quiet.env (ydl_opts Sample.downloader)
                 "https://example.org/a" (world Quiet.start)
               = (inr (Some Sample.clip), [])) by reflexivity.
  assert (Hn : duration_note Quiet.env Sample.clip = inr ["Duration: 2:05"])
    by reflexivity.
  assert (Hd : ydl_download Quiet.env (ydl_opts Sample.downloader)
                 "https://example.org/a" [] = (inr 1, [])) by reflexivity.
  destruct (return_code_is_ignored Quiet.env Sample.downloader _ _ _ _ _ _ _ Hp Hn Hd)
    as (s' & Hrun & _).
  exists s'. exact Hrun.
Defined.

(** ** The records of a run *)

Section Runs.

Variable E : Env.
Variable self : YouTubeDownloader.

(** What holds of every record of [download_single_video] holds of every
    record the loop appends. *)
Lemma loop_keeps (P : Result -> Prop) :
  (forall url (s : State E) r s',
     download_single_video E self url s = (Ok r, s') -> P r) ->
  forall urls total i acc (s : State E),
    Forall P acc ->
    exists rs s', download_loop E self total i urls acc s = (Ok rs, s') /\ Forall P rs.
Proof.
  intros Hstep. induction urls as [|url rest IH]; intros total i acc s Hacc.
  - exists acc, s. split; [reflexivity | exact Hacc].
  - destruct (single_returns E self url (says E s [processing_line total i url]))
      as (r & s2 & Hrun & _).
    rewrite (loop_cons E self _ _ _ _ _ _ _ _ Hrun).
    apply IH. apply Forall_app. split; [exact Hacc|].
    constructor; [apply (Hstep _ _ _ _ Hrun) | constructor].
Qed.

(** X4. Every record [download_multiple_videos] returns is well formed:
    a success record has no error message and a duration that is false
    ([None], a zero, an empty string) or an integer; an error record has
    a message together with the title ["Unknown"] and the duration 0, so
    that its line in the failure list shows that message. *)
Theorem records_are_well_formed urls (s : State E) :
  exists rs s',
    download_multiple_videos E self urls s = (Ok rs, s')
    /\ Forall well_formed rs
    /\ forall r, In r (failed rs) ->
         exists message,
           r_error r = Some message
           /\ failure_line r = "  - " ++ r_url r ++ ": " ++ message.
Proof.
  rewrite multiple_is_loop.
  destruct (loop_keeps well_formed
              (fun url s0 r s0' H => proj1 (single_well_formed E self url s0 r s0' H))
              urls (List.length urls) 1 [] (says E s (header_lines E self urls s))
              (Forall_nil _))
    as (rs & s' & Hrun & Hall).
  exists rs, s'. split; [exact Hrun|]. split; [exact Hall|].
  intros r Hr. unfold failed in Hr. apply filter_In in Hr. destruct Hr as [Hin Hst].
  rewrite Forall_forall in Hall. specialize (Hall r Hin).
  unfold well_formed in Hall. destruct (r_status r); [discriminate|].
  destruct Hall as ((message & Hm) & _). exists message. split; [exact Hm|].
  unfold failure_line. rewrite Hm. reflexivity.
Qed.

(** The lines the loop prints hold the progress line of every URL, the
    counter starting at [i]. *)
Lemma loop_progress urls : forall total i acc (s : State E),
  exists rs s' lines,
    download_loop E self total i urls acc s = (Ok rs, s')
    /\ printed s' = (printed s ++ lines)%list
    /\ forall j u, nth_error urls j = Some u ->
         In (processing_line total (i + Z.of_nat j) u) lines.
Proof.
  induction urls as [|url rest IH]; intros total i acc s.
  - exists acc, s, []. split; [reflexivity|]. split; [symmetry; apply app_nil_r|].
    intros [|j] u H; discriminate.
  - destruct (single_returns E self url (says E s [processing_line total i url]))
      as (r & s2 & Hrun & _).
    destruct (single_prints E self _ _ _ _ Hrun) as [lines1 H1].
    destruct (IH total (i + 1) (acc ++ [r])%list s2) as (rs & s' & lines2 & Hloop & H2 & Hin).
    exists rs, s', (processing_line total i url :: lines1 ++ lines2)%list.
    rewrite (loop_cons E self _ _ _ _ _ _ _ _ Hrun).
    split; [exact Hloop|]. split.
    { rewrite H2, H1. cbn [says printed]. rewrite <- !app_assoc. reflexivity. }
    intros [|j] u Hu.
    + inversion Hu; subst u. left. f_equal. cbn. lia.
    + right. apply in_or_app. right.
      replace (i + Z.of_nat (S j)) with (i + 1 + Z.of_nat j) by lia.
      apply Hin. exact Hu.
Qed.

(** X16. [download_multiple_videos] prints its three header lines first
    and, for the URL at position [j] (from 0), the progress line
    [[j+1/n] Processing: url], [n] being the length of the list. *)
Theorem progress_lines_count_from_one urls (s : State E) j u :
  nth_error urls j = Some u ->
  exists rs s' lines,
    download_multiple_videos E self urls s = (Ok rs, s')
    /\ printed s' =
         List.app (printed s)
           (List.app
              [ "Starting download of " ++ PyStr.of_int (Z.of_nat (List.length urls))
                  ++ " videos...";
                "Download directory: " ++ fs_absolute E (download_path self) (world s);
                PyStr.mul "-" 50 ]
              lines)
    /\ In (PyStr.nl ++ "[" ++ PyStr.of_int (Z.of_nat j + 1) ++ "/"
             ++ PyStr.of_int (Z.of_nat (List.length urls)) ++ "] Processing: " ++ u)
          lines.
Proof.
  intros Hu. rewrite multiple_is_loop.
  destruct (loop_progress urls (List.length urls) 1 []
              (says E s (header_lines E self urls s)))
    as (rs & s' & lines & Hrun & Hprinted & Hin).
  exists rs, s', lines. split; [exact Hrun|]. split.
  - rewrite Hprinted. cbn [says printed]. rewrite <- app_assoc. reflexivity.
  - specialize (Hin j u Hu). unfold processing_line in Hin.
    replace (Z.of_nat j + 1) with (1 + Z.of_nat j) by lia. exact Hin.
Qed.

(** X7. A list file that is read but holds only whitespace-only lines and
    comment lines dispatches nothing: [download_from_file] returns no
    record after printing the header of a download of 0 videos. *)
Theorem file_without_urls file_path lines w (s : State E) :
  fs_read_lines E file_path (world s) = (inr lines, w) ->
  (forall line, In line lines -> whitespace_only line \/ comment line) ->
  download_from_file E self file_path s =
    (Ok [],
     says E (called E s (OpenRead file_path) w)
       [ "Starting download of 0 videos...";
         "Download directory: " ++ fs_absolute E (download_path self) w;
         PyStr.mul "-" 50 ]).
Proof.
  intros Hread Hskip.
  assert (Hnone : parse_url_lines lines = []).
  { clear Hread. unfold parse_url_lines.
    induction lines as [|line rest IH]; [reflexivity|].
    cbn [filter].
    rewrite (proj2 (FileFacts.skip_line_iff line) (Hskip line (or_introl eq_refl))).
    apply IH. intros l Hl. apply Hskip. right. exact Hl. }
  rewrite (from_file_readable E self file_path s lines w Hread), Hnone.
  rewrite multiple_is_loop. reflexivity.
Qed.

End Runs.

(** X5. The two lists the summary counts split the records: the number of
    successes and the number of failures add up to the number processed. *)
Theorem summary_counts_add_up (results : list Result) :
  (List.length (successful results) + List.length (failed results))%nat
  = List.length results
  /\ forall r, In r results <-> In r (successful results) \/ In r (failed results).
Proof.
  split.
  - unfold successful, failed.
    induction results as [|r rs IH]; [reflexivity|].
    cbn [filter]. destruct (r_status r); cbn [Status_eqb List.length]; lia.
  - intros r. unfold successful, failed. rewrite !filter_In.
    destruct (r_status r); cbn [Status_eqb]; intuition congruence.
Qed.

(** X6. For no record at all the summary is the banner and three zero
    counts: no duration line and no failure list. *)
Theorem summary_of_nothing (E : Env) (s : State E) :
  print_summary E [] s =
    (Ok tt,
     says E s
       [ PyStr.nl ++ PyStr.mul "=" 60;
         "DOWNLOAD SUMMARY :3";
         PyStr.mul "=" 60;
         "Total videos processed: 0";
         "Successfully downloaded: 0";
         "Failed downloads: 0" ]).
Proof. rewrite print_summary_run. reflexivity. Qed.

(** X8. Every URL taken from a list file is non-empty and comes from a
    line of the file that is neither whitespace-only nor a comment, of
    which it is the trimmed text. *)
Theorem file_urls_are_trimmed_lines (lines : list string) (url : string) :
  In url (parse_url_lines lines) ->
  url <> ""
  /\ exists line,
       In line lines /\ trimmed line url
       /\ ~ whitespace_only line /\ ~ comment line.
Proof.
  unfold parse_url_lines. intros H. apply in_map_iff in H.
  destruct H as (line & Hurl & Hin). apply filter_In in Hin. destruct Hin as [Hin Hkeep].
  subst url. split.
  - unfold keep_line in Hkeep. apply andb_true_iff in Hkeep. destruct Hkeep as [Ht _].
    intros Hempty. rewrite Hempty in Ht. discriminate.
  - exists line. apply FileFacts.keep_line_iff in Hkeep.
    split; [exact Hin|]. split; [apply FileFacts.strip_trimmed | exact Hkeep].
Qed.

(** The theorem X16 on two sample URLs. *)
Lemma progress_lines_sample :
  exists rs s' lines,
    download_multiple_videos Sample.env Sample.downloader
      ["https://example.org/gone"; "https://example.org/a"] Sample.start = (Ok rs, s')
    /\ In (PyStr.nl ++ "[2/2] Processing: https://example.org/a") lines
    /\ In (PyStr.nl ++ "[2/2] Processing: https://example.org/a") (printed s').
Proof.
  destruct (progress_lines_count_from_one Sample.env Sample.downloader
              ["https://example.org/gone"; "https://example.org/a"] Sample.start
              1 "https://example.org/a" eq_refl)
    as (rs & s' & lines & Hrun & Hprinted & Hin).
  exists rs, s', lines. split; [exact Hrun|]. split; [exact Hin|].
  rewrite Hprinted. apply in_or_app. right. apply in_or_app. right. exact Hin.
Defined.

(** The theorem X7 on the file of the second environment. *)
Lemma file_without_urls_quiet :
  download_from_file Quiet.env Sample.downloader "notes.txt" Quiet.start =
    (Ok [],
     says Quiet.env (called Quiet.env Quiet.start (OpenRead "notes.txt") [])
       [ "Starting download of 0 videos...";
         "Download directory: /home/user/./downloads";
         PyStr.mul "-" 50 ]).
Proof.
  assert (Hread : fs_read_lines Quiet.env "notes.txt" (world Quiet.start)
                  = (inr [ "# nothing to fetch yet" ++ PyStr.nl; PyStr.nl; "#"; "  " ], []))
    by reflexivity.
  apply (file_without_urls Quiet.env Sample.downloader _ _ _ _ Hread).
  intros line [H|[H|[H|[H|[]]]]]; subst line;
    first [ left; reflexivity | right; eexists; reflexivity ].
Defined.

(** The theorem X8 on a file of two lines. *)
Lemma file_urls_are_trimmed_sample :
  "https://example.org/a" <> ""
  /\ exists line,
       In line ["# list"; "  https://example.org/a  " ++ PyStr.nl]
       /\ trimmed line "https://example.org/a"
       /\ ~ whitespace_only line /\ ~ comment line.
Proof.
  apply (file_urls_are_trimmed_lines
           ["# list"; "  https://example.org/a  " ++ PyStr.nl] "https://example.org/a").
  left. reflexivity.
Defined.

(** ** Whole runs *)
Section WholeRuns.

Variable E : Env.

(** The command-line part of [gather_results]. *)
Lemma gather_args_part (self : YouTubeDownloader) (args : Args) (acc : list Result)
    (s : State E) :
  exists from_args s',
    match arg_urls args with
    | [] => ret acc
    | _ :: _ =>
        bind (download_multiple_videos E self (arg_urls args))
             (fun from_args => ret (acc ++ from_args)%list)
    end s = (Ok (acc ++ from_args)%list, s')
    /\ map r_url from_args = arg_urls args
    /\ probed (calls s') = (probed (calls s) ++ arg_urls args)%list.
Proof.
  destruct (arg_urls args) as [|u us] eqn:Hu.
  - exists [], s. rewrite !app_nil_r. repeat split.
  - destruct (multiple_indexed E self (u :: us) s) as (rs & s' & Hrun & Hmap & Hprobes & _).
    exists rs, s'. unfold bind. rewrite Hrun. repeat split; assumption.
Qed.

(** The records and the probes of [gather_results]. *)
Lemma gather_probes (self : YouTubeDownloader) (args : Args) (s : State E) :
  exists rs s',
    gather_results E self args s = (Ok rs, s')
    /\ map r_url rs = (file_urls E args s ++ arg_urls args)%list
    /\ probed (calls s')
       = (probed (calls s) ++ file_urls E args s ++ arg_urls args)%list.
Proof.
  unfold gather_results, file_urls.
  destruct (PyStr.truthy_opt (arg_file args)) eqn:Hfile.
  - set (path := PyStr.of_opt (arg_file args)).
    destruct (fs_read_lines E path (world s)) as [[e|lines] w] eqn:Hread.
    + destruct (gather_args_part self args []
                  (says E (called E s (OpenRead path) w) [file_error_line path e]))
        as (from_args & s' & Hrun & Hmap & Hprobes).
      exists from_args, s'. unfold bind at 1. unfold bind at 1.
      rewrite (from_file_unreadable E self path s e w Hread).
      unfold ret at 1. cbn [app] in *. rewrite Hrun.
      split; [reflexivity|]. split; [exact Hmap|].
      rewrite Hprobes. cbn [says called calls]. rewrite probed_app. cbn [probed].
      rewrite app_nil_r. reflexivity.
    + destruct (multiple_indexed E self (parse_url_lines lines)
                  (called E s (OpenRead path) w))
        as (from_file & s1 & Hrun1 & Hmap1 & Hprobes1 & _).
      destruct (gather_args_part self args from_file s1)
        as (from_args & s' & Hrun & Hmap & Hprobes).
      exists (from_file ++ from_args)%list, s'. unfold bind at 1. unfold bind at 1.
      rewrite (from_file_readable E self path s lines w Hread), Hrun1.
      unfold ret at 1. cbn [app]. rewrite Hrun.
      split; [reflexivity|]. split; [rewrite map_app; congruence|].
      rewrite Hprobes, Hprobes1. cbn [called calls]. rewrite probed_app. cbn [probed].
      rewrite app_nil_r, <- app_assoc. reflexivity.
  - destruct (gather_args_part self args [] s) as (from_args & s' & Hrun & Hmap & Hprobes).
    exists from_args, s'. unfold bind at 1. unfold ret at 1. cbn [app] in *.
    rewrite Hrun. auto.
Qed.

(** X9. [gather_results] probes the URLs of the list file, in file order,
    and then the URLs of the command line, in their order: each URL once
    per occurrence, nothing left out and nothing merged. *)
Theorem sources_are_probed_in_order (self : YouTubeDownloader) (args : Args)
    (s : State E) :
  exists rs s',
    gather_results E self args s = (Ok rs, s')
    /\ map r_url rs = (file_urls E args s ++ arg_urls args)%list
    /\ probed (calls s')
       = (probed (calls s) ++ file_urls E args s ++ arg_urls args)%list.
Proof. apply gather_probes. Qed.

(** X10. When the arguments parse, the output directory can be made and
    there is a list file or a URL, [main] ends as [print_summary] does on
    one record per URL of the file followed by one per URL of the command
    line, after probing them in that order; the counts are printed, the
    first being the number of those URLs, and with integer durations
    [main] returns after the whole summary. *)
Theorem main_summarises_all_sources (argv : list string) (args : Args)
    (s : State E) (w0 : World E) :
  parse_args E (tl argv) = inr args ->
  fs_mkdir E (arg_output args) (world s) = (inr tt, w0) ->
  PyStr.truthy_opt (arg_file args) = true \/ arg_urls args <> [] ->
  let s1 := called E s (Mkdir (arg_output args)) w0 in
  let urls := (file_urls E args s1 ++ arg_urls args)%list in
  exists rs s3,
    main E argv s = print_summary E rs s3
    /\ map r_url rs = urls
    /\ probed (calls s3) = (probed (calls s) ++ urls)%list
    /\ (exists rest,
          snd (main E argv s) = says E s3 (List.app (count_lines rs) rest))
    /\ nth_error (count_lines rs) 3
       = Some ("Total videos processed: " ++ PyStr.of_int (Z.of_nat (List.length urls)))
    /\ (whole_durations rs -> main E argv s = (Ok tt, says E s3 (summary_lines rs))).
Proof.
  intros Hparse Hmk Hsome s1 urls.
  destruct (gather_probes
              (built E (arg_output args) (arg_audio_only args) (arg_quality args)
                 (arg_format args)) args s1)
    as (rs & s3 & Hgather & Hmap & Hprobes).
  assert (Hmain : main E argv s = print_summary E rs s3).
  { unfold main. rewrite Hparse. unfold bind at 1. rewrite init_run, Hmk.
    cbn [fst snd]. fold s1. unfold bind at 1. rewrite Hgather.
    assert (Hbranch : negb (PyStr.truthy_opt (arg_file args))
                      && match arg_urls args with [] => true | _ :: _ => false end
                      = false).
    { destruct Hsome as [Hf|Hu]; [rewrite Hf; reflexivity|].
      destruct (arg_urls args); [congruence | apply andb_false_r]. }
    rewrite Hbranch. reflexivity. }
  exists rs, s3. split; [exact Hmain|]. split; [exact Hmap|]. split.
  { rewrite Hprobes. subst s1. cbn [called calls]. rewrite probed_app. cbn [probed].
    rewrite app_nil_r. reflexivity. }
  rewrite Hmain. split; [apply print_summary_counts|]. split.
  - cbn [count_lines nth_error].
    unfold urls. rewrite <- Hmap, length_map. reflexivity.
  - intros Hwhole. apply print_summary_says. exact Hwhole.
Qed.

(** X11. No exception of a download or of the list file escapes the
    program.  It ends by returning; or by exiting, with status 1 when
    [yt_dlp] cannot be imported and with the code of argparse otherwise;
    or by raising what [mkdir] raised or what computing the duration line
    of the summary raised. *)
Theorem what_escapes_the_program (argv : list string) (s : State E) :
  match fst (program E argv s) with
  | Ok _ => True
  | Exit code =>
      (yt_dlp_found E = false /\ code = 1)
      \/ parse_args E (tl argv) = inl code
  | Raise e =>
      (exists path, fst (fs_mkdir E path (world s)) = inl e)
      \/ (exists rs, exc_bind (total_duration E rs) (duration_line E) = inl e)
  end
  /\ (yt_dlp_found E = false ->
      program E argv s
      = (Exit 1,
         says E s ["yt-dlp not found. Please install it with: pip install yt-dlp"])).
Proof.
  assert (Hsummary : forall rs (s0 : State E) e,
             fst (print_summary E rs s0) = Raise e ->
             exc_bind (total_duration E rs) (duration_line E) = inl e).
  { intros rs s0 e. rewrite print_summary_run.
    destruct (successful rs); [discriminate|].
    destruct (exc_bind (total_duration E rs) (duration_line E)); cbn [fst];
      congruence. }
  split.
  - unfold program. destruct (yt_dlp_found E).
    2:{ unfold bind, sys_exit. rewrite print_says. cbn [fst]. left. auto. }
    unfold script. destruct (1 <? List.length argv)%nat.
    + unfold main. destruct (parse_args E (tl argv)) as [code|args] eqn:Hparse.
      { cbn [sys_exit fst]. right. reflexivity. }
      unfold bind at 1. rewrite init_run.
      destruct (fst (fs_mkdir E (arg_output args) (world s))) as [e|[]] eqn:Hmk.
      { cbn [fst]. left. exists (arg_output args). exact Hmk. }
      match goal with
      | |- context [bind (gather_results E ?d args) _ ?st] =>
          destruct (gather_probes d args st) as (rs & s3 & Hgather & _)
      end.
      unfold bind at 1. rewrite Hgather.
      destruct (negb (PyStr.truthy_opt (arg_file args))
                && match arg_urls args with [] => true | _ :: _ => false end).
      * rewrite print_all_says. exact I.
      * destruct (fst (print_summary E rs s3)) as [u|e|code] eqn:Hout.
        -- exact I.
        -- right. exists rs. apply (Hsummary rs s3 e Hout).
        -- rewrite print_summary_run in Hout.
           destruct (successful rs); [discriminate|].
           destruct (exc_bind (total_duration E rs) (duration_line E)); discriminate.
    + unfold bind at 1. rewrite print_says. unfold bind at 1. rewrite print_says.
      unfold bind at 1. rewrite init_run. cbn [says world].
      destruct (fst (fs_mkdir E "./downloads" (world s))) as [e|[]] eqn:Hmk.
      { cbn [fst]. left. exists "./downloads". exact Hmk. }
      match goal with
      | |- context [bind (download_multiple_videos E ?d example_urls) _ ?st] =>
          destruct (multiple_indexed E d example_urls st) as (rs & s3 & Hrun & _)
      end.
      unfold bind at 1. rewrite Hrun.
      destruct (fst (print_summary E rs s3)) as [u|e|code] eqn:Hout.
      * exact I.
      * right. exists rs. apply (Hsummary rs s3 e Hout).
      * rewrite print_summary_run in Hout.
        destruct (successful rs); [discriminate|].
        destruct (exc_bind (total_duration E rs) (duration_line E)); discriminate.
  - intros Hfound. unfold program. rewrite Hfound. reflexivity.
Qed.

(** X13. Run without arguments, the script never consults the parser: it
    prints its banner, makes [./downloads], and with the configuration of
    quality [best] probes the ten entries of [example_urls] in order; it
    ends as [print_summary] does on their ten records. *)
Theorem bare_script_runs_the_examples (argv : list string) (s : State E) (w0 : World E) :
  (List.length argv <= 1)%nat ->
  fs_mkdir E "./downloads" (world s) = (inr tt, w0) ->
  let s1 := called E (says E s ["YouTube Multi-Video Downloader"; PyStr.mul "=" 40])
              (Mkdir "./downloads") w0 in
  exists rs s3,
    download_multiple_videos E (built E "./downloads" false "best" None) example_urls s1
      = (Ok rs, s3)
    /\ script E argv s = print_summary E rs s3
    /\ map r_url rs = example_urls
    /\ List.length rs = 10%nat
    /\ probed (calls s3) = (probed (calls s) ++ example_urls)%list.
Proof.
  intros Hargv Hmk s1.
  destruct (multiple_indexed E (built E "./downloads" false "best" None) example_urls s1)
    as (rs & s3 & Hrun & Hmap & Hprobes & _).
  exists rs, s3. split; [exact Hrun|]. split.
  - unfold script. apply Nat.ltb_ge in Hargv. rewrite Hargv.
    unfold bind at 1. rewrite print_says. unfold bind at 1. rewrite print_says.
    unfold bind at 1. rewrite init_run. rewrite says_says. cbn [says world app].
    rewrite Hmk. cbn [fst snd]. fold s1.
    unfold bind at 1. rewrite Hrun. reflexivity.
  - split; [exact Hmap|]. split.
    + rewrite <- (length_map r_url), Hmap. reflexivity.
    + rewrite Hprobes. subst s1. cbn [says called calls]. rewrite probed_app.
      cbn [probed]. rewrite app_nil_r. reflexivity.
Qed.

End WholeRuns.

(** The theorem X10 on the sample list file and one more URL. *)
Lemma main_summarises_sample :
  exists rs s3,
    main Sample.env ["downloader.py"; "-f"; "urls.txt"; "https://example.org/bare"]
      Sample.start
    = print_summary Sample.env rs s3
    /\ map r_url rs
       = [ "https://example.org/a";
           "# kept: the line does not start with the hash sign";
           "https://example.org/gone";
           "https://example.org/bare" ]
    /\ nth_error (count_lines rs) 3 = Some "Total videos processed: 4".
Proof.
  assert (Hparse : parse_args Sample.env
                     (tl ["downloader.py"; "-f"; "urls.txt"; "https://example.org/bare"])
                   = inr (Sample.defaults_with (Some "urls.txt")
                            ["https://example.org/bare"])) by reflexivity.
  assert (Hmk : fs_mkdir Sample.env "./downloads" (world Sample.start) = (inr tt, []))
    by reflexivity.
  destruct (main_summarises_all_sources Sample.env _ _ Sample.start [] Hparse Hmk
              (or_introl eq_refl))
    as (rs & s3 & Hmain & Hmap & _ & _ & Hcount & _).
  exists rs, s3. split; [exact Hmain|]. split; [exact Hmap | exact Hcount].
Defined.

(** The theorem X13 in the sample environment, with an empty [sys.argv]
    tail. *)
Lemma bare_script_sample :
  exists rs s3,
    script Sample.env ["downloader.py"] Sample.start
    = print_summary Sample.env rs s3
    /\ map r_url rs = example_urls.
Proof.
  assert (Hargv : (List.length ["downloader.py"] <= 1)%nat) by (simpl; lia).
  assert (Hmk : fs_mkdir Sample.env "./downloads" (world Sample.start) = (inr tt, []))
    by reflexivity.
  destruct (bare_script_runs_the_examples Sample.env _ Sample.start [] Hargv Hmk)
    as (rs & s3 & _ & Hrun & Hmap & _).
  exists rs, s3. split; [exact Hrun | exact Hmap].
Defined.

(** ** What is printed about a duration *)

Lemma fmt_02d_two_characters z :
  0 <= z < 60 -> String.length (PyStr.fmt_02d z) = 2%nat.
Proof.
  intros Hz.
  assert (Hn : exists n, (n < 60)%nat /\ z = Z.of_nat n)
    by (exists (Z.to_nat z); lia).
  destruct Hn as (n & Hn & ->).
  do 60 (destruct n as [|n]; [reflexivity|]). lia.
Qed.

(** X14. After a probe whose metadata holds an integer duration (or
    none) and a download that returns, [download_single_video] has
    printed the title line, with [Unknown] for an absent title and
    [None] for a stored [None], and, for a duration other than 0, one
    line [Duration: M:SS] with [M] the whole minutes (not reduced to
    hours) and [SS] always two characters; for a duration of 0, or none,
    no duration line. *)
Theorem duration_is_announced (E : Env) (self : YouTubeDownloader) (url : string)
    (s : State E) (info : Info) (d : Z) (w1 : World E) (code : Z) (w2 : World E) :
  ydl_extract_info E (ydl_opts self) url (world s) = (inr (Some info), w1) ->
  match info_duration info with Some duration => duration | None => PyInt 0 end
    = PyInt d ->
  ydl_download E (ydl_opts self) url w1 = (inr code, w2) ->
  let title := match info_title info with Some t => t | None => PyStr "Unknown" end in
  exists r s',
    download_single_video E self url s = (Ok r, s')
    /\ printed s' =
         List.app (printed s)
           (("Downloading: " ++ py_str E title)
              :: (if d =? 0 then []
                  else ["Duration: " ++ PyStr.of_int (d / 60) ++ ":"
                          ++ PyStr.fmt_02d (d mod 60)]))
    /\ String.length (PyStr.fmt_02d (d mod 60)) = 2%nat
    /\ py_str E (PyStr "Unknown") = "Unknown"
    /\ py_str E PyNone = "None".
Proof.
  intros Hp Hduration Hd title.
  assert (Hn : duration_note E info
               = inr (if d =? 0 then []
                      else ["Duration: " ++ PyStr.of_int (d / 60) ++ ":"
                              ++ PyStr.fmt_02d (d mod 60)])).
  { unfold duration_note, duration_of, get_or. rewrite Hduration.
    cbn [truthy_val]. destruct (d =? 0); reflexivity. }
  eexists _, _. split; [apply (single_fetch_returns E self _ _ _ _ _ _ _ Hp Hn Hd)|].
  split; [reflexivity|]. split; [|split; reflexivity].
  apply fmt_02d_two_characters. apply Z.mod_pos_bound. lia.
Qed.

(** The theorem X14 on the sample clip of 125 seconds. *)
Lemma duration_is_announced_sample :
  exists r s',
    download_single_video Sample.env Sample.downloader "https://example.org/a"
      Sample.start = (Ok r, s')
    /\ printed s' = ["Downloading: Clip"; "Duration: 2:05"].
Proof.
  assert (Hp : ydl_extract_info Sample.env (ydl_opts Sample.downloader)
                 "https://example.org/a" (world Sample.start)
               = (inr (Some Sample.clip), [])) by reflexivity.
  assert (Hd : ydl_download Sample.env (ydl_opts Sample.downloader)
                 "https://example.org/a" []
               = (inr 0, ["https://example.org/a"])) by reflexivity.
  destruct (duration_is_announced Sample.env Sample.downloader _ _ _ 125 _ _ _
              Hp eq_refl Hd)
    as (r & s' & Hrun & Hprinted & _).
  exists r, s'. split; [exact Hrun | exact Hprinted].
Defined.

(** X18. A duration that is a true float (any float but a zero) makes the
    f-string of the duration line raise [ValueError]: the title has been
    printed, the fetch is not called, and the record is the error record
    with the message of the format code. *)
Theorem float_duration_is_an_error (E : Env) (self : YouTubeDownloader) (url : string)
    (s : State E) (info : Info) (x : PrimFloat.float) (w1 : World E) :
  ydl_extract_info E (ydl_opts self) url (world s) = (inr (Some info), w1) ->
  info_duration info = Some (PyFloat x) ->
  PrimFloat.eqb x PrimFloat.zero = false ->
  let title := match info_title info with Some t => t | None => PyStr "Unknown" end in
  download_single_video E self url s =
    (Ok {| r_url := url; r_title := PyStr "Unknown"; r_status := error;
           r_duration := PyInt 0;
           r_error := Some "Unknown format code 'd' for object of type 'float'" |},
     {| world := w1;
        printed :=
          List.app (printed s)
            [ "Downloading: " ++ py_str E title;
              "Error downloading " ++ url
                ++ ": Unknown format code 'd' for object of type 'float'" ];
        calls := List.app (calls s) [Probe (ydl_opts self) url] |}).
Proof.
  intros Hp Hduration Hx title.
  assert (Hn : duration_note E info
               = inl {| exc_class := ValueError;
                        exc_str := "Unknown format code 'd' for object of type 'float'" |}).
  { unfold duration_note, duration_of, get_or. rewrite Hduration.
    cbn [truthy_val]. rewrite Hx. reflexivity. }
  rewrite (single_note_raises E self _ _ _ _ _ Hp Hn).
  unfold says, called. cbn [world printed calls]. reflexivity.
Qed.

(** The theorem X18 on the sample URL with a duration of 12.5 seconds. *)
Lemma float_duration_sample :
  fst (download_single_video Sample.env Sample.downloader "https://example.org/live"
         Sample.start)
  = Ok (error_result "https://example.org/live"
          "Unknown format code 'd' for object of type 'float'").
Proof.
  assert (Hp : ydl_extract_info Sample.env (ydl_opts Sample.downloader)
                 "https://example.org/live" (world Sample.start)
               = (inr (Some Sample.live), [])) by reflexivity.
  rewrite (float_duration_is_an_error Sample.env Sample.downloader _ _ _ _ _
             Hp eq_refl eq_refl).
  reflexivity.
Defined.

(** X19. When the durations of the success records are integers up to one
    that is [None], the sum of the summary raises [TypeError] there: the
    banner and the three counts have been printed, the duration line and
    the failure list are not. *)
Theorem none_duration_stops_the_summary (E : Env) (results : list Result)
    (ds : list Z) (rest : list PyVal) (s : State E) :
  map r_duration (successful results) = (map PyInt ds ++ PyNone :: rest)%list ->
  print_summary E results s =
    (Raise {| exc_class := TypeError;
              exc_str := "unsupported operand type(s) for +: 'int' and 'NoneType'" |},
     says E s
       [ PyStr.nl ++ PyStr.mul "=" 60;
         "DOWNLOAD SUMMARY :3";
         PyStr.mul "=" 60;
         "Total videos processed: " ++ PyStr.of_int (Z.of_nat (List.length results));
         "Successfully downloaded: "
           ++ PyStr.of_int (Z.of_nat (List.length (successful results)));
         "Failed downloads: " ++ PyStr.of_int (Z.of_nat (List.length (failed results))) ]).
Proof.
  intros Hds.
  assert (Hsum : forall acc,
             py_sum_from E (PyInt acc) (map PyInt ds ++ PyNone :: rest)
             = inl {| exc_class := TypeError;
                      exc_str := "unsupported operand type(s) for +: 'int' and 'NoneType'" |}).
  { clear Hds. induction ds as [|d ds IH]; intros acc; [reflexivity|].
    cbn [map app py_sum_from py_add exc_bind]. apply IH. }
  rewrite print_summary_run. unfold total_duration, py_sum. rewrite Hds, Hsum.
  unfold count_lines.
  destruct (successful results); [destruct ds; discriminate | reflexivity].
Qed.

(** The theorem X19 on a success of 125 seconds followed by a success
    with the duration [None]. *)
Lemma none_duration_sample :
  fst (print_summary Sample.env
         [ success_result "https://example.org/a" (PyStr "Clip") (PyInt 125);
           success_result "https://example.org/null" PyNone PyNone ]
         Sample.start)
  = Raise {| exc_class := TypeError;
             exc_str := "unsupported operand type(s) for +: 'int' and 'NoneType'" |}.
Proof.
  rewrite (none_duration_stops_the_summary Sample.env
             [ success_result "https://example.org/a" (PyStr "Clip") (PyInt 125);
               success_result "https://example.org/null" PyNone PyNone ]
             [125] [] Sample.start eq_refl).
  reflexivity.
Defined.

(** ** The height bound of the selector *)

Lemma append_same_length_inj (a b c d : string) :
  a ++ c = b ++ d -> String.length a = String.length b -> a = b /\ c = d.
Proof.
  revert b. induction a as [|x a IH]; intros [|y b] H Hlen; try discriminate.
  - split; [reflexivity | exact H].
  - cbn [append] in H. inversion H; subst y. cbn [String.length] in Hlen.
    destruct (IH b H2) as [-> ->]; [lia|]. split; reflexivity.
Qed.

Lemma append_length (a b : string) :
  String.length (a ++ b) = (String.length a + String.length b)%nat.
Proof. induction a; cbn [append String.length]; [reflexivity | lia]. Qed.

(** X15. A quality made of the letter [p] only (the empty quality
    included) leaves nothing for the bound: the selector is
    [best[height<=][ext=mp4]/best[height<=]]. *)
Theorem quality_of_p_only (quality : string) :
  PyStrFacts.all_chars (Ascii.eqb "p"%char) quality = true ->
  select_format None false quality = "best[height<=][ext=mp4]/best[height<=]".
Proof.
  intros Hp. unfold select_format, quality_format. cbn [PyStr.truthy_opt].
  destruct (String.eqb_spec quality "best") as [->|_]; [discriminate|].
  destruct (String.eqb_spec quality "worst") as [->|_]; [discriminate|].
  unfold PyStr.rstrip_p.
  rewrite (proj2 (PyStrFacts.rstrip_empty_iff _ quality) Hp). reflexivity.
Qed.

(** The theorem X15 on the quality ["pp"]. *)
Lemma quality_of_p_only_pp :
  select_format None false "pp" = "best[height<=][ext=mp4]/best[height<=]".
Proof. apply quality_of_p_only. reflexivity. Defined.

(** X17. Two qualities other than [best] and [worst] give the same
    selector exactly when they agree up to trailing [p]s. *)
Theorem selector_determines_bound (q1 q2 : string) :
  q1 <> "best" -> q1 <> "worst" -> q2 <> "best" -> q2 <> "worst" ->
  (select_format None false q1 = select_format None false q2
   <-> PyStr.rstrip_p q1 = PyStr.rstrip_p q2).
Proof.
  intros H1b H1w H2b H2w. unfold select_format, quality_format.
  cbn [PyStr.truthy_opt].
  apply String.eqb_neq in H1b, H1w, H2b, H2w. rewrite H1b, H1w, H2b, H2w.
  split; [|intros ->; reflexivity].
  set (k1 := PyStr.rstrip_p q1). set (k2 := PyStr.rstrip_p q2). intros H.
  assert (Hlen : String.length k1 = String.length k2).
  { apply (f_equal String.length) in H.
    repeat first [ rewrite append_length in H | progress cbn [String.length] in H ].
    lia. }
  change ("best[height<=" ++ k1 ++ "][ext=mp4]/best[height<=" ++ k1 ++ "]"
          = "best[height<=" ++ k2 ++ "][ext=mp4]/best[height<=" ++ k2 ++ "]") in H.
  apply append_same_length_inj in H; [|reflexivity]. destruct H as [_ H].
  apply append_same_length_inj in H; [|exact Hlen]. apply H.
Qed.

(** The theorem X17 on ["480"] and ["480p"]. *)
Lemma selector_determines_bound_480 :
  select_format None false "480" = select_format None false "480p".
Proof.
  apply (selector_determines_bound "480" "480p");
    [discriminate | discriminate | discriminate | discriminate | reflexivity].
Defined.

(** ** The calls of the loop *)

(** The URLs fetched, in the order of the calls. *)
Fixpoint fetched (cs : list Call) : list string :=
  match cs with
  | [] => []
  | Fetch _ url :: rest => url :: fetched rest
  | _ :: rest => fetched rest
  end.

Lemma fetched_app a b : fetched (a ++ b) = (fetched a ++ fetched b)%list.
Proof.
  induction a as [|c a IH]; simpl; [reflexivity|].
  destruct c; simpl; rewrite IH; reflexivity.
Qed.

Lemma dispatch_calls_length cs :
  forallb is_dispatch cs = true ->
  List.length cs = (List.length (probed cs) + List.length (fetched cs))%nat.
Proof.
  induction cs as [|c cs IH]; [reflexivity|].
  cbn [forallb]. intros H. apply andb_true_iff in H. destruct H as [Hc Hcs].
  specialize (IH Hcs). destruct c; cbn in *; try discriminate; lia.
Qed.

Section LoopCalls.

Variable E : Env.
Variable self : YouTubeDownloader.

Lemma single_calls url (s : State E) r s' :
  download_single_video E self url s = (Ok r, s') ->
  exists cs,
    calls s' = (calls s ++ cs)%list
    /\ forallb is_dispatch cs = true
    /\ probed cs = [url]
    /\ (fetched cs = [] \/ fetched cs = [url])
    /\ (r_status r = success -> fetched cs = [url]).
Proof.
  intros H.
  destruct (single_cases E self url s)
    as [(e & w & Hp & Hrun)
       |[(w & Hp & Hrun)
        |[(info & w1 & e & Hp & Hn & Hrun)
         |[(info & w1 & lines & e & w2 & Hp & Hn & Hd & Hrun)
          |(info & w1 & lines & code & w2 & Hp & Hn & Hd & Hrun)]]]];
    rewrite Hrun in H; inversion H; subst; cbn [says called calls].
  - exists [Probe (ydl_opts self) url]. repeat split; auto. discriminate.
  - exists [Probe (ydl_opts self) url]. repeat split; auto. discriminate.
  - exists [Probe (ydl_opts self) url]. repeat split; auto. discriminate.
  - exists [Probe (ydl_opts self) url; Fetch (ydl_opts self) url].
    rewrite <- app_assoc. repeat split; auto.
  - exists [Probe (ydl_opts self) url; Fetch (ydl_opts self) url].
    rewrite <- app_assoc. repeat split; auto.
Qed.

Lemma loop_calls urls : forall total i acc (s : State E),
  exists rs s' cs,
    download_loop E self total i urls acc s = (Ok (acc ++ rs)%list, s')
    /\ calls s' = (calls s ++ cs)%list
    /\ forallb is_dispatch cs = true
    /\ probed cs = urls
    /\ incl (fetched cs) urls
    /\ (List.length (successful rs) <= List.length (fetched cs))%nat
    /\ (List.length (fetched cs) <= List.length urls)%nat.
Proof.
  induction urls as [|url rest IH]; intros total i acc s.
  - exists [], s, []. cbn [download_loop]. unfold ret. rewrite !app_nil_r.
    repeat split; auto. intros x Hx. exact Hx.
  - destruct (single_returns E self url (says E s [processing_line total i url]))
      as (r & s2 & Hrun & _).
    destruct (single_calls _ _ _ _ Hrun) as (cs1 & Hc1 & Hd1 & Hp1 & Hf1 & Hs1).
    destruct (IH total (i + 1) (acc ++ [r])%list s2)
      as (rs & s' & cs2 & Hloop & Hc2 & Hd2 & Hp2 & Hf2 & Hle1 & Hle2).
    exists (r :: rs), s', (cs1 ++ cs2)%list.
    rewrite (loop_cons E self _ _ _ _ _ _ _ _ Hrun), Hloop, <- app_assoc.
    split; [reflexivity|]. split.
    { rewrite Hc2, Hc1. cbn [says calls]. rewrite app_assoc. reflexivity. }
    split; [rewrite forallb_app, Hd1, Hd2; reflexivity|].
    split; [rewrite probed_app, Hp1, Hp2; reflexivity|].
    rewrite fetched_app, length_app. split.
    { intros x Hx. apply in_app_or in Hx. destruct Hx as [Hx|Hx].
      - destruct Hf1 as [Hf1|Hf1]; rewrite Hf1 in Hx; [destruct Hx|].
        destruct Hx as [<-|[]]. left. reflexivity.
      - right. apply Hf2. exact Hx. }
    unfold successful in *. cbn [filter List.length].
    destruct (r_status r) eqn:Hst; cbn [Status_eqb List.length].
    + rewrite (Hs1 eq_refl). cbn [List.length].
      split; lia.
    + destruct Hf1 as [Hf1|Hf1]; rewrite Hf1; cbn [List.length]; split; lia.
Qed.


End LoopCalls.
